(** * NeuraMorphosis-Chat: a shallow embedding of the chat client's core

    The modules below follow the TypeScript sources:
    - [JsString]: the JavaScript string primitives the code relies on
      ([trim], [trimStart], [split(' ')], [join], [includes], [indexOf]).
    - [SummaryFollowUp]: [handleAskFollowUp] of the summarization editor
      (the in-band [[replace_summary_with_new_text]] command).
    - [ChatTurn]: [handleSendMessage], [switchChat] of [App] (part_002), the
      stream fold of one chat turn.
    - [Gemini]: [initializeChatSession], [generateChatTitleWithAI],
      [generateFallbackTitle] of services/geminiService.ts and the request
      built by [sendMessageToChatStream] (proxy version, part_004).
    - [Storage]: services/localStorageService.ts over a modelled
      [localStorage], and the preference state of [App].
    - [Summarizer]: [handleSummarize] and [handleExportSummary] of the
      summarization editor (part_000).
    - [AppShell]: the conversation handlers of [App] around a turn
      ([createAppInitialWelcomeText], [mapMessagesToGeminiHistory],
      [startNewChat], [deleteChat], the mount effect, [currentChatTitle],
      opening and closing the summarization editor). *)

From Stdlib Require Import String Ascii List ZArith Lia.
From stdpp Require Import base list gmap strings.
Import ListNotations.



(* ------------------------------------------------------------------ *)
(** ** JavaScript string primitives *)

Module JsString.

(** Whitespace as [String.prototype.trim] sees it, restricted to the
    8-bit characters of [ascii]: TAB, LF, VT, FF, CR, SPACE, NBSP. *)
Definition is_js_ws (a : ascii) : bool :=
  let n := nat_of_ascii a in
  (Nat.eqb n 9 || Nat.eqb n 10 || Nat.eqb n 11 || Nat.eqb n 12 ||
   Nat.eqb n 13 || Nat.eqb n 32 || Nat.eqb n 160)%bool.

Fixpoint trimStart (s : string) : string :=
  match s with
  | EmptyString => EmptyString
  | String a r => if is_js_ws a then trimStart r else s
  end.

Fixpoint drop_ws_list (l : list ascii) : list ascii :=
  match l with
  | [] => []
  | a :: r => if is_js_ws a then drop_ws_list r else l
  end.

Definition trimEnd (s : string) : string :=
  string_of_list_ascii (rev (drop_ws_list (rev (list_ascii_of_string s)))).

Definition trim (s : string) : string := trimEnd (trimStart s).

(** [s.includes(sub)] and [s.indexOf(sub)] ([-1] as [None]). *)
Definition indexOf (s sub : string) : option nat := String.index 0 sub s.

Definition includes (s sub : string) : bool :=
  match indexOf s sub with Some _ => true | None => false end.

(** [s.substring(n)]: from position [n] to the end. *)
Definition substring_from (s : string) (n : nat) : string :=
  substring n (String.length s - n) s.

(** [s.split(c)] for a one-character separator: [n] separators give
    [n + 1] pieces, and [""] gives [[""]]. *)
Fixpoint split_char (c : ascii) (s : string) : list string :=
  match s with
  | EmptyString => [EmptyString]
  | String a r =>
      match split_char c r with
      | [] => [] (* not reached: the result is never empty *)
      | w :: ws =>
          if Ascii.eqb a c then EmptyString :: w :: ws
          else String a w :: ws
      end
  end.

Definition space : ascii := " "%char.

(** [words.join(sep)]. *)
Fixpoint join (sep : string) (l : list string) : string :=
  match l with
  | [] => EmptyString
  | [w] => w
  | w :: ws => w +:+ sep +:+ join sep ws
  end.

(** [a || b] on strings: the empty string is falsy. *)
Definition or_else (a b : string) : string :=
  if String.eqb a "" then b else a.

(** A string that may be [undefined]: [x || d]. *)
Definition opt_or_else (a : option string) (b : string) : string :=
  match a with Some s => or_else s b | None => b end.

Definition newline : string := String (ascii_of_nat 10) EmptyString.

Fixpoint to_lower (s : string) : string :=
  match s with
  | EmptyString => EmptyString
  | String a r =>
      let n := nat_of_ascii a in
      let a' := if (Nat.leb 65 n && Nat.leb n 90)%bool
                then ascii_of_nat (n + 32) else a in
      String a' (to_lower r)
  end.

Definition startsWith (s pre : string) : bool := String.prefix pre s.

End JsString.

Import JsString.

(** The outcome of a streamed response once the caller stops reading:
    the stream ends, or a read (or the opening request) throws with an
    [Error] whose [message] may be absent. *)
Inductive StreamEnd :=
| StreamDone
| StreamThrew (message : option string).

(** The text of one streamed chunk, [chunk.text], which may be [undefined]. *)
Definition chunk_text (c : option string) : string :=
  match c with Some t => t | None => "" end.

Fixpoint concat_chunks (cs : list (option string)) : string :=
  match cs with
  | [] => ""
  | c :: r => chunk_text c +:+ concat_chunks r
  end.

(* ------------------------------------------------------------------ *)
(** ** Summarization editor: [handleAskFollowUp] (unnamed/part_000) *)

Module SummaryFollowUp.

Definition REPLACE_SUMMARY_COMMAND : string := "[replace_summary_with_new_text]".

(** React state of the editor touched by [handleAskFollowUp], plus the
    ref [isReplacingSummaryRef]. *)
Record Editor := {
  displayText : string;
  followUpResponse : string;
  followUpError : option string;
  isAskingFollowUp : bool;
  didFollowUpActAsReplacement : bool;
  isReplacingSummaryRef : bool
}.

Definition set_displayText (e : Editor) (t : string) : Editor :=
  {| displayText := t; followUpResponse := followUpResponse e;
     followUpError := followUpError e; isAskingFollowUp := isAskingFollowUp e;
     didFollowUpActAsReplacement := didFollowUpActAsReplacement e;
     isReplacingSummaryRef := isReplacingSummaryRef e |}.

Definition set_followUpResponse (e : Editor) (t : string) : Editor :=
  {| displayText := displayText e; followUpResponse := t;
     followUpError := followUpError e; isAskingFollowUp := isAskingFollowUp e;
     didFollowUpActAsReplacement := didFollowUpActAsReplacement e;
     isReplacingSummaryRef := isReplacingSummaryRef e |}.

Definition set_followUpError (e : Editor) (t : option string) : Editor :=
  {| displayText := displayText e; followUpResponse := followUpResponse e;
     followUpError := t; isAskingFollowUp := isAskingFollowUp e;
     didFollowUpActAsReplacement := didFollowUpActAsReplacement e;
     isReplacingSummaryRef := isReplacingSummaryRef e |}.

Definition set_isAskingFollowUp (e : Editor) (b : bool) : Editor :=
  {| displayText := displayText e; followUpResponse := followUpResponse e;
     followUpError := followUpError e; isAskingFollowUp := b;
     didFollowUpActAsReplacement := didFollowUpActAsReplacement e;
     isReplacingSummaryRef := isReplacingSummaryRef e |}.

(** [isReplacingSummaryRef.current = b] together with
    [setDidFollowUpActAsReplacement(d)]. *)
Definition set_replacing (e : Editor) (b d : bool) : Editor :=
  {| displayText := displayText e; followUpResponse := followUpResponse e;
     followUpError := followUpError e; isAskingFollowUp := isAskingFollowUp e;
     didFollowUpActAsReplacement := d;
     isReplacingSummaryRef := b |}.

(** The loop state: the editor and the two local accumulators
    [revisedSummaryAccumulator] and [currentFollowUpTextAccumulator]. *)
Definition LoopState : Type := Editor * string * string.

(** One iteration of [for await (const chunk of stream)]. *)
Definition followUpChunk (s : LoopState) (chunk : option string) : LoopState :=
  let '(e, revised, current) := s in
  match chunk with
  | None => s
  | Some textChunk =>
      if String.eqb textChunk "" then s
      else if (negb (isReplacingSummaryRef e)
               && includes textChunk REPLACE_SUMMARY_COMMAND)%bool then
        let e1 := set_replacing e true true in
        let idx := match indexOf textChunk REPLACE_SUMMARY_COMMAND with
                   | Some i => i | None => 0 end in
        let textAfterCommand :=
          trimStart (substring_from textChunk
                       (idx + String.length REPLACE_SUMMARY_COMMAND)) in
        if negb (String.eqb textAfterCommand "") then
          let revised' := revised +:+ textAfterCommand in
          (set_displayText e1 revised', revised', current)
        else (e1, revised, current)
      else if isReplacingSummaryRef e then
        let revised' := revised +:+ textChunk in
        (set_displayText e revised', revised', current)
      else
        let current' := current +:+ textChunk in
        (set_followUpResponse e current', revised, current')
  end.

Definition followUpLoop (s : LoopState) (chunks : list (option string)) : LoopState :=
  fold_left followUpChunk chunks s.

(** [handleAskFollowUp]: [aiReady] is [!!aiInstance]; [chunks] are the
    chunks read before the stream ends as [fin] says (a throw of
    [generateContentStream] itself is [StreamThrew] after no chunk). *)
Definition handleAskFollowUp (aiReady : bool) (followUpQuestion : string)
    (isSummaryComplete : bool) (e : Editor)
    (chunks : list (option string)) (fin : StreamEnd) : Editor :=
  if (negb aiReady || String.eqb (trim followUpQuestion) ""
      || String.eqb (trim (displayText e)) "" || negb isSummaryComplete)%bool then
    set_followUpError e (Some "Cannot ask follow-up: AI service not ready, question is empty, or no summary context available.")
  else
    let e0 := set_replacing
                (set_followUpResponse
                   (set_followUpError (set_isAskingFollowUp e true) None) "")
                false false in
    let '(e1, revised, _) := followUpLoop (e0, "", "") chunks in
    let e2 :=
      match fin with
      | StreamDone =>
          if (isReplacingSummaryRef e1 && String.eqb revised "")%bool
          then set_displayText e1 "" else e1
      | StreamThrew m =>
          set_followUpError e1
            (Some ("Follow-up failed: " +:+ opt_or_else m "Unknown error"))
      end in
    set_isAskingFollowUp e2 false.

Definition has_marker (c : option string) : bool :=
  match c with Some t => includes t REPLACE_SUMMARY_COMMAND | None => false end.

(** The text after the first command inside one chunk, as the code cuts
    it (leading whitespace dropped). *)
Definition after_marker (t : string) : string :=
  let idx := match indexOf t REPLACE_SUMMARY_COMMAND with
             | Some i => i | None => 0 end in
  trimStart (substring_from t (idx + String.length REPLACE_SUMMARY_COMMAND)).

End SummaryFollowUp.

(* ------------------------------------------------------------------ *)
(** ** One chat turn: [handleSendMessage] and [switchChat] (unnamed/part_002) *)

Module ChatTurn.

Inductive Sender := User | AI.

Definition Sender_eqb (a b : Sender) : bool :=
  match a, b with User, User | AI, AI => true | _, _ => false end.

Record ThinkingDetails := {
  td_enabled : bool;
  td_budget : option Z;
  td_modelUsed : option string;
  td_reasoningSupportedByModel : bool
}.

(** [ChatMessageContent]; optional fields are [option]s. *)
Record ChatMessageContent := {
  msg_id : string;
  msg_text : string;
  msg_sender : Sender;
  msg_isStreaming : option bool;
  msg_isError : option bool;
  msg_thinkingDetails : option ThinkingDetails
}.

Record StoredChat := {
  chat_id : string;
  chat_title : string;
  chat_createdAt : string;
  chat_messages : list ChatMessageContent;
  chat_aiMessagesSinceLastTitleUpdate : option nat
}.

Inductive AppView := ViewChat | ViewSettings | ViewSummarizer.

(** [ChatContextForTitleUpdate], the content of [titleUpdateQueue]. *)
Record TitleJob := {
  job_id : string;
  job_isNew : bool;
  job_messagesForContext : list ChatMessageContent
}.

(** The state of [App] that a turn reads or writes.  Presentation-only
    state (sidebar, scroll, editor text, welcome-text ref) is left out. *)
Record AppState := {
  st_messages : list ChatMessageContent;
  st_isLoading : bool;
  st_error : option string;
  st_currentChatId : option string;
  st_allChats : list StoredChat;
  st_currentView : AppView;
  st_thinkingBudget : Z;
  st_currentChatModel : string;
  st_titleUpdateQueue : option TitleJob
}.

(** The setters React offers, one per field written by a turn. *)
Definition setMessages (s : AppState) (m : list ChatMessageContent) : AppState :=
  {| st_messages := m; st_isLoading := st_isLoading s; st_error := st_error s;
     st_currentChatId := st_currentChatId s; st_allChats := st_allChats s;
     st_currentView := st_currentView s; st_thinkingBudget := st_thinkingBudget s;
     st_currentChatModel := st_currentChatModel s;
     st_titleUpdateQueue := st_titleUpdateQueue s |}.

Definition setIsLoading (s : AppState) (b : bool) : AppState :=
  {| st_messages := st_messages s; st_isLoading := b; st_error := st_error s;
     st_currentChatId := st_currentChatId s; st_allChats := st_allChats s;
     st_currentView := st_currentView s; st_thinkingBudget := st_thinkingBudget s;
     st_currentChatModel := st_currentChatModel s;
     st_titleUpdateQueue := st_titleUpdateQueue s |}.

Definition setError (s : AppState) (e : option string) : AppState :=
  {| st_messages := st_messages s; st_isLoading := st_isLoading s; st_error := e;
     st_currentChatId := st_currentChatId s; st_allChats := st_allChats s;
     st_currentView := st_currentView s; st_thinkingBudget := st_thinkingBudget s;
     st_currentChatModel := st_currentChatModel s;
     st_titleUpdateQueue := st_titleUpdateQueue s |}.

Definition setCurrentChatId (s : AppState) (c : option string) : AppState :=
  {| st_messages := st_messages s; st_isLoading := st_isLoading s; st_error := st_error s;
     st_currentChatId := c; st_allChats := st_allChats s;
     st_currentView := st_currentView s; st_thinkingBudget := st_thinkingBudget s;
     st_currentChatModel := st_currentChatModel s;
     st_titleUpdateQueue := st_titleUpdateQueue s |}.

Definition setAllChats (s : AppState) (cs : list StoredChat) : AppState :=
  {| st_messages := st_messages s; st_isLoading := st_isLoading s; st_error := st_error s;
     st_currentChatId := st_currentChatId s; st_allChats := cs;
     st_currentView := st_currentView s; st_thinkingBudget := st_thinkingBudget s;
     st_currentChatModel := st_currentChatModel s;
     st_titleUpdateQueue := st_titleUpdateQueue s |}.

Definition setCurrentView (s : AppState) (v : AppView) : AppState :=
  {| st_messages := st_messages s; st_isLoading := st_isLoading s; st_error := st_error s;
     st_currentChatId := st_currentChatId s; st_allChats := st_allChats s;
     st_currentView := v; st_thinkingBudget := st_thinkingBudget s;
     st_currentChatModel := st_currentChatModel s;
     st_titleUpdateQueue := st_titleUpdateQueue s |}.

Definition setTitleUpdateQueue (s : AppState) (j : option TitleJob) : AppState :=
  {| st_messages := st_messages s; st_isLoading := st_isLoading s; st_error := st_error s;
     st_currentChatId := st_currentChatId s; st_allChats := st_allChats s;
     st_currentView := st_currentView s; st_thinkingBudget := st_thinkingBudget s;
     st_currentChatModel := st_currentChatModel s;
     st_titleUpdateQueue := j |}.

(** Message updates used by the turn ([{ ...msg, field: v }]). *)
Definition with_text (m : ChatMessageContent) (t : string) : ChatMessageContent :=
  {| msg_id := msg_id m; msg_text := t; msg_sender := msg_sender m;
     msg_isStreaming := msg_isStreaming m; msg_isError := msg_isError m;
     msg_thinkingDetails := msg_thinkingDetails m |}.

Definition with_text_streaming (m : ChatMessageContent) (t : string) (b : bool) : ChatMessageContent :=
  {| msg_id := msg_id m; msg_text := t; msg_sender := msg_sender m;
     msg_isStreaming := Some b; msg_isError := msg_isError m;
     msg_thinkingDetails := msg_thinkingDetails m |}.

Definition with_error_text (m : ChatMessageContent) (t : string) : ChatMessageContent :=
  {| msg_id := msg_id m; msg_text := t; msg_sender := msg_sender m;
     msg_isStreaming := Some false; msg_isError := Some true;
     msg_thinkingDetails := msg_thinkingDetails m |}.

Definition chat_with_messages (c : StoredChat) (ms : list ChatMessageContent) : StoredChat :=
  {| chat_id := chat_id c; chat_title := chat_title c; chat_createdAt := chat_createdAt c;
     chat_messages := ms;
     chat_aiMessagesSinceLastTitleUpdate := chat_aiMessagesSinceLastTitleUpdate c |}.

Definition chat_with_messages_count (c : StoredChat) (ms : list ChatMessageContent) (n : nat) : StoredChat :=
  {| chat_id := chat_id c; chat_title := chat_title c; chat_createdAt := chat_createdAt c;
     chat_messages := ms; chat_aiMessagesSinceLastTitleUpdate := Some n |}.

(** [prev.map(msg => msg.id === id ? f(msg) : msg)]. *)
Definition map_message (id : string) (f : ChatMessageContent -> ChatMessageContent)
    (l : list ChatMessageContent) : list ChatMessageContent :=
  map (fun m => if String.eqb (msg_id m) id then f m else m) l.

Definition find_message (id : string) (l : list ChatMessageContent) : option ChatMessageContent :=
  find (fun m => String.eqb (msg_id m) id) l.

Definition INITIAL_AI_WELCOME_TEXT_BASE : string := "Hello! I'm NeuraMorphosis AI.".
Definition TITLE_UPDATE_MESSAGE_THRESHOLD : nat := 3.
Definition THINKING_CONFIG_SUPPORTED_MODELS : list string := ["gemini-2.5-flash"].

Definition list_includes (l : list string) (x : string) : bool :=
  existsb (String.eqb x) l.

(** [isEffectivelyNewChat] (a [useMemo] over [messages] and [isLoading]). *)
Definition isEffectivelyNewChat (s : AppState) : bool :=
  (Nat.leb (length (st_messages s)) 1 &&
   match st_messages s with
   | [] => true
   | m :: _ => Sender_eqb (msg_sender m) AI &&
               startsWith (msg_text m) INITIAL_AI_WELCOME_TEXT_BASE
   end && negb (st_isLoading s))%bool.

(** [scheduleTitleUpdate] of the render [closure]: replaces the queued job
    (the 2 s timer is re-armed; its firing is not part of a turn). *)
Definition scheduleTitleUpdate (closure : AppState) (chatIdToUpdate : string)
    (isNewChat : bool) (s : AppState) : AppState :=
  let messagesForContext :=
    if (match st_currentChatId closure with
        | Some c => String.eqb chatIdToUpdate c | None => false end)
    then st_messages closure
    else match find (fun c => String.eqb (chat_id c) chatIdToUpdate) (st_allChats closure) with
         | Some c => chat_messages c | None => [] end in
  if (Nat.eqb (length messagesForContext) 0 && negb isNewChat)%bool then s
  else setTitleUpdateQueue s (Some {| job_id := chatIdToUpdate; job_isNew := isNewChat;
                                      job_messagesForContext := messagesForContext |}).

(** [switchChat(chatId)]. *)
Definition switchChat (s : AppState) (chatId : string) : AppState :=
  match find (fun c => String.eqb (chat_id c) chatId) (st_allChats s) with
  | Some chatToLoad =>
      setCurrentView
        (setIsLoading
           (setError (setCurrentChatId (setMessages s (chat_messages chatToLoad)) (Some chatId))
              None) false) ViewChat
  | None => s
  end.

(** The values the [handleSendMessage] closure holds across its awaits. *)
Record Turn := {
  tr_chatId : option string;            (* currentChatId of the render *)
  tr_aiResponseId : string;
  tr_updatedMessagesWithUser : list ChatMessageContent;
  tr_thinkingDetails : option ThinkingDetails;
  tr_accumulatedRegularText : string;
  tr_closure : AppState                 (* the render [scheduleTitleUpdate] sees *)
}.

Definition with_acc (t : Turn) (acc : string) : Turn :=
  {| tr_chatId := tr_chatId t; tr_aiResponseId := tr_aiResponseId t;
     tr_updatedMessagesWithUser := tr_updatedMessagesWithUser t;
     tr_thinkingDetails := tr_thinkingDetails t;
     tr_accumulatedRegularText := acc; tr_closure := tr_closure t |}.

(** [handleSendMessage(inputText)] up to the first [await]: [now1] and
    [now2] are the two [Date.now()] readings.  [None] is the early return. *)
Definition handleSendMessage_start (s : AppState) (inputText now1 now2 : string)
    : option (AppState * Turn) :=
  if (String.eqb (trim inputText) "" || st_isLoading s)%bool then None
  else
    let s1 := setCurrentView (setIsLoading (setError s None) true) ViewChat in
    let userMessage := {| msg_id := "user-" +:+ now1; msg_text := inputText;
                          msg_sender := User; msg_isStreaming := None;
                          msg_isError := None; msg_thinkingDetails := None |} in
    let baseMessagesForThisTurn := if isEffectivelyNewChat s then [] else st_messages s in
    let updatedMessagesWithUser := baseMessagesForThisTurn ++ [userMessage] in
    let s2 := setMessages s1 updatedMessagesWithUser in
    let s3 :=
      match st_currentChatId s with
      | Some cid =>
          let s' := setAllChats s2
                      (map (fun chat => if String.eqb (chat_id chat) cid
                                        then chat_with_messages chat updatedMessagesWithUser
                                        else chat) (st_allChats s2)) in
          if isEffectivelyNewChat s then scheduleTitleUpdate s cid true s' else s'
      | None => s2
      end in
    let aiResponseId := "ai-" +:+ now2 in
    let thinkingDetailsForMessage :=
      if list_includes THINKING_CONFIG_SUPPORTED_MODELS (st_currentChatModel s)
      then Some {| td_enabled := Z.gtb (st_thinkingBudget s) 0;
                   td_budget := Some (st_thinkingBudget s);
                   td_modelUsed := Some (st_currentChatModel s);
                   td_reasoningSupportedByModel := true |}
      else None in
    let aiMessage := {| msg_id := aiResponseId; msg_text := ""; msg_sender := AI;
                        msg_isStreaming := Some true; msg_isError := None;
                        msg_thinkingDetails := thinkingDetailsForMessage |} in
    let s4 := setMessages s3 (st_messages s3 ++ [aiMessage]) in
    Some (s4, {| tr_chatId := st_currentChatId s; tr_aiResponseId := aiResponseId;
                 tr_updatedMessagesWithUser := updatedMessagesWithUser;
                 tr_thinkingDetails := thinkingDetailsForMessage;
                 tr_accumulatedRegularText := ""; tr_closure := s |}).

(** What may happen while the turn awaits the stream: a chunk arrives, or
    the user switches the active conversation. *)
Inductive TurnEvent :=
| EvChunk (text : option string)
| EvSwitch (chatId : string).

(** Each [setMessages] the turn issues is logged with the turn's message as
    it stands right after the update ([None] when the displayed list does
    not hold it). *)
Definition Log : Type := list (option ChatMessageContent).

Definition turn_setMessages (s : AppState) (t : Turn)
    (f : ChatMessageContent -> ChatMessageContent) : AppState * Log :=
  let s' := setMessages s (map_message (tr_aiResponseId t) f (st_messages s)) in
  (s', [find_message (tr_aiResponseId t) (st_messages s')]).

Definition turn_event (st : AppState * Turn * Log) (ev : TurnEvent) : AppState * Turn * Log :=
  let '(s, t, log) := st in
  match ev with
  | EvChunk (Some textContent) =>
      if String.eqb textContent "" then st
      else
        let acc := tr_accumulatedRegularText t +:+ textContent in
        let t' := with_acc t acc in
        let '(s', l) := turn_setMessages s t' (fun m => with_text m acc) in
        (s', t', log ++ l)
  | EvChunk None => st
  | EvSwitch chatId => (switchChat s chatId, t, log)
  end.

Definition run_turn (s : AppState) (t : Turn) (evs : list TurnEvent) : AppState * Turn * Log :=
  fold_left turn_event evs (s, t, []).

(** The end-of-turn update of [allChats] (lines 392-410), with the flag
    telling whether the updater called [scheduleTitleUpdate]. *)
Fixpoint commit_turn (cid aiResponseId : string) (updated : list ChatMessageContent)
    (finalAiMessage : ChatMessageContent) (chats : list StoredChat) : list StoredChat * bool :=
  match chats with
  | [] => ([], false)
  | chat :: rest =>
      let '(rest', sched) := commit_turn cid aiResponseId updated finalAiMessage rest in
      if String.eqb (chat_id chat) cid then
        let finalMessagesForStorage :=
          filter (fun m => negb (String.eqb (msg_id m) aiResponseId)) updated ++ [finalAiMessage] in
        let newAiMessageCount :=
          match chat_aiMessagesSinceLastTitleUpdate chat with
          | Some n => n | None => 0 end + 1 in
        let sched_here :=
          (Nat.leb TITLE_UPDATE_MESSAGE_THRESHOLD newAiMessageCount &&
           negb (String.eqb (chat_title chat) "New Chat"))%bool in
        (chat_with_messages_count chat finalMessagesForStorage newAiMessageCount :: rest',
         (sched_here || sched)%bool)
      else (chat :: rest', sched)
  end.

Definition finalAiMessage (t : Turn) : ChatMessageContent :=
  {| msg_id := tr_aiResponseId t; msg_text := tr_accumulatedRegularText t;
     msg_sender := AI; msg_isStreaming := Some false; msg_isError := None;
     msg_thinkingDetails := tr_thinkingDetails t |}.

(** The end of the stream: [catch] (with its [return]) and [finally], or
    the code after the [try]. *)
Definition finish_turn (s : AppState) (t : Turn) (fin : StreamEnd) : AppState * Log :=
  let acc := tr_accumulatedRegularText t in
  match fin with
  | StreamThrew message =>
      let errorMessage := "Error: " +:+ opt_or_else message "Failed to get response from AI." in
      let s1 := setError s (Some errorMessage) in
      let '(s2, l2) := turn_setMessages s1 t (fun m => with_error_text m errorMessage) in
      let s3 := setIsLoading s2 false in
      (* finally *)
      let '(s4, l4) := turn_setMessages s3 t (fun m => with_text_streaming m acc false) in
      (s4, l2 ++ l4)
  | StreamDone =>
      (* finally *)
      let '(s1, l1) := turn_setMessages s t (fun m => with_text_streaming m acc false) in
      let fin_msg := finalAiMessage t in
      let '(s2, l2) := turn_setMessages s1 t (fun _ => fin_msg) in
      let s3 :=
        match tr_chatId t with
        | Some cid =>
            let '(chats', sched) := commit_turn cid (tr_aiResponseId t)
                                      (tr_updatedMessagesWithUser t) fin_msg (st_allChats s2) in
            let s' := setAllChats s2 chats' in
            if sched then scheduleTitleUpdate (tr_closure t) cid false s' else s'
        | None => s2
        end in
      (setIsLoading s3 false, l1 ++ l2)
  end.

(** A whole turn: start, the events while streaming, the end. *)
Definition handleSendMessage (s : AppState) (inputText now1 now2 : string)
    (evs : list TurnEvent) (fin : StreamEnd) : AppState * Log :=
  match handleSendMessage_start s inputText now1 now2 with
  | None => (s, [])
  | Some (s1, t) =>
      let '(s2, t2, l2) := run_turn s1 t evs in
      let '(s3, l3) := finish_turn s2 t2 fin in
      (s3, l2 ++ l3)
  end.


End ChatTurn.

(* ------------------------------------------------------------------ *)
(** ** Concrete states used to evaluate the chat turn *)

Module TurnScenario.
Import ChatTurn.

Definition welcome : ChatMessageContent :=
  {| msg_id := "ai-welcome-1"; msg_text := "Hello! I'm NeuraMorphosis AI. How can I help you today?";
     msg_sender := AI; msg_isStreaming := Some false; msg_isError := None;
     msg_thinkingDetails := None |}.

Definition chatA : StoredChat :=
  {| chat_id := "chat-A"; chat_title := "New Chat"; chat_createdAt := "2025-01-01T00:00:00.000Z";
     chat_messages := [welcome]; chat_aiMessagesSinceLastTitleUpdate := Some 0 |}.

Definition chatB : StoredChat :=
  {| chat_id := "chat-B"; chat_title := "Trip ideas"; chat_createdAt := "2025-01-01T00:00:00.000Z";
     chat_messages := []; chat_aiMessagesSinceLastTitleUpdate := Some 0 |}.

(** The app showing the fresh conversation A, with B in the sidebar. *)
Definition s0 : AppState :=
  {| st_messages := [welcome]; st_isLoading := false; st_error := None;
     st_currentChatId := Some "chat-A"; st_allChats := [chatA; chatB];
     st_currentView := ViewChat; st_thinkingBudget := 0%Z;
     st_currentChatModel := "gemini-2.5-flash"; st_titleUpdateQueue := None |}.

Definition stored_messages (id : string) (chats : list StoredChat) : option (list ChatMessageContent) :=
  option_map chat_messages (find (fun c => String.eqb (chat_id c) id) chats).

Definition is_terminal (m : option ChatMessageContent) : bool :=
  match m with Some x => match msg_isStreaming x with Some false => true | _ => false end
             | None => false end.

End TurnScenario.

(* ------------------------------------------------------------------ *)
(** ** Gemini service: services/geminiService.ts *)

(** A call that returns a value or throws an [Error] with a message. *)
Inductive Result (A : Type) :=
| Ok (v : A)
| Throw (message : string).
Arguments Ok {A} v.
Arguments Throw {A} message.

Module Gemini.
Import ChatTurn.

Definition AVAILABLE_CHAT_MODELS : list string :=
  ["gemini-2.5-flash"; "gemini-2.5-pro"; "gemini-2.5-flash-lite"].

Definition MODEL_FRIENDLY_NAMES : list (string * string) :=
  [("gemini-2.5-flash", "Flash (Fast & Efficient)");
   ("gemini-2.5-pro", "Pro (Advanced & Powerful)");
   ("gemini-2.5-flash-lite", "Flash Lite (Ultra Fast)")].

Fixpoint record_lookup (k : string) (l : list (string * string)) : option string :=
  match l with
  | [] => None
  | (k', v) :: r => if String.eqb k k' then Some v else record_lookup k r
  end.

Definition getFriendlyModelName (modelId : string) : string :=
  opt_or_else (record_lookup modelId MODEL_FRIENDLY_NAMES) modelId.

Definition DEFAULT_CHAT_MODEL : string := "gemini-2.5-flash".
Definition TITLE_GENERATION_MODEL_NAME : string := "gemini-2.5-flash".

(** [ChatMessageHistoryItem]: a role and the texts of its parts. *)
Record HistoryItem := {
  hi_role : string;
  hi_parts : list string
}.

(** The [config] of a chat: its system instruction and the optional
    [thinkingConfig.thinkingBudget]. *)
Record ChatConfig := {
  systemInstruction : string;
  thinkingConfig : option Z
}.

(** What [ai.chats.create] is given. *)
Record ChatSession := {
  cs_model : string;
  cs_config : ChatConfig;
  cs_history : list HistoryItem
}.

(** The calls the module makes on the backend client. *)
Inductive Request :=
| ChatsCreate (session : ChatSession)
| GenerateContent (model : string) (contents : string).

(** The module's state: [process.env.API_KEY], whether the client [ai] has
    been built, [chatSessionInstance], and the backend calls made so far. *)
Record Env := {
  API_KEY : option string;
  ai : bool;
  chatSessionInstance : option ChatSession;
  requests : list Request
}.

Definition set_ai (e : Env) : Env :=
  {| API_KEY := API_KEY e; ai := true; chatSessionInstance := chatSessionInstance e;
     requests := requests e |}.

Definition set_session (e : Env) (c : option ChatSession) : Env :=
  {| API_KEY := API_KEY e; ai := ai e; chatSessionInstance := c; requests := requests e |}.

Definition log_request (e : Env) (r : Request) : Env :=
  {| API_KEY := API_KEY e; ai := ai e; chatSessionInstance := chatSessionInstance e;
     requests := requests e ++ [r] |}.

(** A computation over the module state that may throw. *)
Definition GM (A : Type) : Type := Env -> Env * Result A.

Definition gret {A} (a : A) : GM A := fun e => (e, Ok a).

Definition gbind {A B} (m : GM A) (k : A -> GM B) : GM B :=
  fun e => match m e with
           | (e', Ok a) => k a e'
           | (e', Throw msg) => (e', Throw msg)
           end.

Notation "'let*' x := m 'in' k" := (gbind m (fun x => k))
  (at level 200, x name, m at level 100, k at level 200).

Definition initializeAI : GM unit :=
  fun e =>
    if String.eqb (opt_or_else (API_KEY e) "") "" then
      (e, Throw "API_KEY environment variable not set. Please ensure it is configured.")
    else if ai e then (e, Ok tt) else (set_ai e, Ok tt).

Definition chatSystemInstruction (friendlyModelName : string) : string :=
  "You are NeuraMorphosis AI, a helpful and independent text-based chat assistant. You are currently operating as the '"
  +:+ friendlyModelName +:+ "' model configuration." +:+ newline
  +:+ "Provide helpful text-based responses." +:+ newline
  +:+ "If asked about your capabilities, mention you are a text-based assistant." +:+ newline
  +:+ "Respond in the language of the user's input if it is clear, otherwise default to English." +:+ newline.

(** [initializeChatSession(modelName, history?, thinkingBudgetUiValue?)]. *)
Definition initializeChatSession (modelName : string) (history : option (list HistoryItem))
    (thinkingBudgetUiValue : option Z) : GM ChatSession :=
  let* _ := initializeAI in
  let friendlyModelName := getFriendlyModelName modelName in
  let currentModelToUse :=
    if list_includes AVAILABLE_CHAT_MODELS modelName then modelName else DEFAULT_CHAT_MODEL in
  let chatConfig :=
    {| systemInstruction := chatSystemInstruction friendlyModelName;
       thinkingConfig :=
         if String.eqb currentModelToUse "gemini-2.5-flash"
         then match thinkingBudgetUiValue with Some b => Some b | None => None end
         else None |} in
  let session := {| cs_model := currentModelToUse; cs_config := chatConfig;
                    cs_history := match history with Some h => h | None => [] end |} in
  fun e => (set_session (log_request e (ChatsCreate session)) (Some session), Ok session).

Definition resetChatSession : GM unit := fun e => (set_session e None, Ok tt).

(** [mapAppMessagesToGeminiHistoryForTitle]. *)
Definition keepForTitle (initialWelcomeTextBase : string) (msg : ChatMessageContent) : bool :=
  match msg_sender msg with
  | User => true
  | AI =>
      (negb (startsWith (msg_text msg) "AI is viewing the image") &&
       negb (startsWith (msg_text msg) "NeuraMorphosis AI is thinking deeply...") &&
       negb (startsWith (msg_text msg) initialWelcomeTextBase))%bool
  end.

Definition mapAppMessagesToGeminiHistoryForTitle (messages : list ChatMessageContent)
    (initialWelcomeTextBase : string) : list HistoryItem :=
  map (fun msg => {| hi_role := match msg_sender msg with User => "user" | AI => "model" end;
                     hi_parts := [msg_text msg] |})
      (filter (keepForTitle initialWelcomeTextBase) messages).

(** [generateFallbackTitle]. *)
Definition generateFallbackTitle (chatMessages : list ChatMessageContent) : string :=
  match find (fun msg => Sender_eqb (msg_sender msg) User) chatMessages with
  | Some firstUserMsg =>
      if String.eqb (msg_text firstUserMsg) "" then "Chat Conversation"
      else
        let words := split_char space (trim (msg_text firstUserMsg)) in
        join " " (firstn (Nat.min (length words) 4) words) +:+
        (if Nat.ltb 4 (length words) then "..." else "")
  | None => "Chat Conversation"
  end.

Definition dquote : string := String (ascii_of_nat 34) EmptyString.

Definition titlePrompt (conversationContext : string) : string :=
  "Based on the following conversation snippet, generate a concise and descriptive title (strictly 3-7 words long) that summarizes the main topic or theme. The title should sound like a podcast episode title. Do not include any prefixes like "
  +:+ dquote +:+ "Title:" +:+ dquote
  +:+ " or quotation marks around the title. Just provide the title itself." +:+ newline
  +:+ newline +:+ "Conversation:" +:+ newline +:+ conversationContext +:+ newline
  +:+ newline +:+ "Title:".

(** The prompt of the title request, or [None] when the filtered history
    is empty (no request is made). *)
Definition titleRequest (chatMessages : list ChatMessageContent) (initialWelcomeTextBase : string)
    : option string :=
  let historyForTitle := mapAppMessagesToGeminiHistoryForTitle chatMessages initialWelcomeTextBase in
  if Nat.eqb (length historyForTitle) 0 then None
  else
    let conversationContext0 :=
      join newline (map (fun item => hi_role item +:+ ": " +:+ join "" (hi_parts item))
                        historyForTitle) in
    let conversationContext :=
      if Nat.ltb 1500 (String.length conversationContext0)
      then "..." +:+ substring_from conversationContext0 (String.length conversationContext0 - 1500)
      else conversationContext0 in
    Some (titlePrompt conversationContext).

(** [.replace(/^["']|["']$/g, '')]: one leading and one trailing quote. *)
Definition is_quote (a : ascii) : bool :=
  (Ascii.eqb a (ascii_of_nat 34) || Ascii.eqb a (ascii_of_nat 39))%bool.

Definition strip_leading_quote (s : string) : string :=
  match s with
  | String a r => if is_quote a then r else s
  | EmptyString => EmptyString
  end.

Definition strip_trailing_quote (s : string) : string :=
  match rev (list_ascii_of_string s) with
  | a :: r => if is_quote a then string_of_list_ascii (rev r) else s
  | [] => s
  end.

Definition cleanTitleOf (responseText : string) : string :=
  let cleanTitle0 := strip_trailing_quote (strip_leading_quote (trim responseText)) in
  let cleanTitle1 :=
    if startsWith (to_lower cleanTitle0) "title:"
    then trim (substring_from cleanTitle0 (String.length "title:"))
    else cleanTitle0 in
  let wordsInTitle := split_char space cleanTitle1 in
  if Nat.ltb 7 (length wordsInTitle)
  then join " " (firstn 7 wordsInTitle) +:+ "..."
  else cleanTitle1.

(** What the backend makes of the title request: the call throws, or it
    answers with an optional [promptFeedback.blockReason] and an optional
    [text]. *)
Inductive TitleResponse :=
| TitleThrows
| TitleAnswer (blockReason : option string) (text : option string).

(** The [try] block of the title generation, after the request. *)
Definition titleFromResponse (chatMessages : list ChatMessageContent) (r : TitleResponse) : string :=
  match r with
  | TitleThrows => generateFallbackTitle chatMessages
  | TitleAnswer blockReason responseText =>
      if negb (String.eqb (opt_or_else blockReason "") "") then generateFallbackTitle chatMessages
      else match responseText with
           | Some t =>
               if negb (String.eqb (trim t) "") then
                 let cleanTitle := cleanTitleOf t in
                 if String.eqb cleanTitle "" then generateFallbackTitle chatMessages
                 else cleanTitle
               else generateFallbackTitle chatMessages
           | None => generateFallbackTitle chatMessages
           end
  end.

(** [generateChatTitleWithAI(chatMessages, initialWelcomeTextBase)];
    [None] stands for a [null] or [undefined] list. *)
Definition generateChatTitleWithAI (chatMessages : option (list ChatMessageContent))
    (initialWelcomeTextBase : string) (r : TitleResponse) : GM string :=
  let* _ := initializeAI in
  match chatMessages with
  | None | Some [] => gret "New Chat"
  | Some msgs =>
      match titleRequest msgs initialWelcomeTextBase with
      | None => gret (generateFallbackTitle msgs)
      | Some prompt =>
          fun e => (log_request e (GenerateContent TITLE_GENERATION_MODEL_NAME prompt),
                    Ok (titleFromResponse msgs r))
      end
  end.

(** When a title answer counts as a failure: the call throws, the prompt
    is blocked, or the text is missing or empty after cleaning. *)
Definition title_failed (r : TitleResponse) : bool :=
  match r with
  | TitleThrows => true
  | TitleAnswer blockReason responseText =>
      negb (String.eqb (opt_or_else blockReason "") "") ||
      match responseText with
      | Some t => String.eqb (trim t) "" || String.eqb (cleanTitleOf t) ""
      | None => true
      end
  end%bool.

(** [processTitleUpdateQueue] of [App] (unnamed/part_002, lines 198-230):
    the stored conversations once the queued job has run, given what the
    title generation returned for the job's messages.  The queue is
    emptied and [isTitleLoading] toggled; neither is modelled. *)
Definition chat_with_title (c : StoredChat) (title : string) : StoredChat :=
  {| chat_id := chat_id c; chat_title := title; chat_createdAt := chat_createdAt c;
     chat_messages := chat_messages c;
     chat_aiMessagesSinceLastTitleUpdate := chat_aiMessagesSinceLastTitleUpdate c |}.

Definition chat_with_new_title (c : StoredChat) (title : string) : StoredChat :=
  {| chat_id := chat_id c; chat_title := title; chat_createdAt := chat_createdAt c;
     chat_messages := chat_messages c; chat_aiMessagesSinceLastTitleUpdate := Some 0 |}.

Definition processTitleUpdateQueue (queue : option TitleJob) (currentChatId : option string)
    (allChats : list StoredChat) (generate : list ChatMessageContent -> Result string)
    : list StoredChat :=
  match queue with
  | None => allChats
  | Some job =>
      let chatIdForTitle := job_id job in
      let messagesForContext := job_messagesForContext job in
      let is_current := match currentChatId with
                        | Some c => String.eqb chatIdForTitle c | None => false end in
      if (negb is_current && negb (job_isNew job))%bool then allChats
      else
        let hasUserMessage :=
          existsb (fun m => Sender_eqb (msg_sender m) User &&
                            negb (String.eqb (trim (msg_text m)) ""))%bool messagesForContext in
        let onlyWelcome :=
          match messagesForContext with
          | [] => true
          | [m] => startsWith (msg_text m) INITIAL_AI_WELCOME_TEXT_BASE
          | _ => false
          end in
        if (negb hasUserMessage && onlyWelcome)%bool then
          if job_isNew job then
            map (fun c => if String.eqb (chat_id c) chatIdForTitle
                          then chat_with_title c "New Chat" else c) allChats
          else allChats
        else
          match generate messagesForContext with
          | Ok newTitle =>
              map (fun chat => if String.eqb (chat_id chat) chatIdForTitle
                               then chat_with_new_title chat newTitle else chat) allChats
          | Throw _ => allChats
          end
  end.

(** The proxy flavour of the service (unnamed/part_004): requests go to
    [/api/proxy] as JSON bodies instead of through a client object. *)
Module Proxy.

(** [message: string | Part[]]. *)
Inductive MessageInput :=
| MsgText (text : string)
| MsgParts (parts : list string).

(** The bodies posted to [/api/proxy]. *)
Inductive ProxyRequest :=
| ProxyGenerateTitle (titlePrompt : string)
| ProxyChat (history : list HistoryItem) (message : list string) (model : string)
            (config : ChatConfig).

(** The body built by [sendMessageToChatStream(message, history, model,
    thinkingBudget)] before the [fetch]. *)
Definition sendMessageToChatStream (message : MessageInput) (history : list HistoryItem)
    (model : string) (thinkingBudget : option Z) : ProxyRequest :=
  let friendlyModelName := getFriendlyModelName model in
  let chatConfig :=
    {| systemInstruction := chatSystemInstruction friendlyModelName;
       thinkingConfig :=
         if String.eqb model "gemini-2.5-flash"
         then match thinkingBudget with Some b => Some b | None => None end
         else None |} in
  let partsForMessage := match message with MsgText t => [t] | MsgParts ps => ps end in
  ProxyChat history partsForMessage model chatConfig.

(** What the proxy makes of the title request: the [fetch] (or a non-ok
    status, or the JSON body) throws, or the body's [text]. *)
Inductive ProxyTitleResponse :=
| ProxyThrows
| ProxyText (text : option string).

(** [generateChatTitleWithAI] of the proxy flavour: the requests posted and
    the title.  Its [try] block reads the answer as the client flavour does
    without a [blockReason]. *)
Definition generateChatTitleWithAI (chatMessages : option (list ChatMessageContent))
    (initialWelcomeTextBase : string) (r : ProxyTitleResponse) : list ProxyRequest * string :=
  match chatMessages with
  | None | Some [] => ([], "New Chat")
  | Some msgs =>
      match titleRequest msgs initialWelcomeTextBase with
      | None => ([], generateFallbackTitle msgs)
      | Some prompt =>
          ([ProxyGenerateTitle prompt],
           titleFromResponse msgs (match r with
                                   | ProxyThrows => TitleThrows
                                   | ProxyText t => TitleAnswer None t
                                   end))
      end
  end.

End Proxy.

End Gemini.

(** Concrete inputs for the service. *)
Module GeminiScenario.
Import ChatTurn Gemini.

Definition env0 : Env :=
  {| API_KEY := Some "test-key"; ai := false; chatSessionInstance := None; requests := [] |}.

Definition env_no_key : Env :=
  {| API_KEY := None; ai := false; chatSessionInstance := None; requests := [] |}.

Definition user_msg (id text : string) : ChatMessageContent :=
  {| msg_id := id; msg_text := text; msg_sender := User; msg_isStreaming := None;
     msg_isError := None; msg_thinkingDetails := None |}.

Definition rome_chat : list ChatMessageContent :=
  [TurnScenario.welcome; user_msg "user-1" "Plan my trip to Rome"].

(** The same request typed with two spaces after "my". *)
Definition rome_chat_two_spaces : list ChatMessageContent :=
  [user_msg "user-1" ("Plan my " +:+ " trip to Rome")].

(** A title job for conversation A whose first user message is blank. *)
Definition blank_job : TitleJob :=
  {| job_id := "chat-A"; job_isNew := true;
     job_messagesForContext := [user_msg "user-1" "   "; user_msg "user-2" "Rome trip"] |}.

End GeminiScenario.

(* ------------------------------------------------------------------ *)
(** ** Persistence: services/localStorageService.ts *)

Module Storage.

(** [window.localStorage]: its items, and whether it can be used at all
    ([available]; a disabled store throws on every call) or refuses writes
    ([full]; [setItem] throws a quota error). *)
Record LocalStorage := {
  items : gmap string string;
  available : bool;
  full : bool
}.

Definition getItem (key : string) (ls : LocalStorage) : Result (option string) :=
  if available ls then Ok (items ls !! key) else Throw "SecurityError".

Definition setItem (key value : string) (ls : LocalStorage) : LocalStorage * Result unit :=
  if available ls then
    if full ls then (ls, Throw "QuotaExceededError")
    else ({| items := <[key := value]> (items ls); available := true; full := full ls |}, Ok tt)
  else (ls, Throw "SecurityError").

Definition removeItem (key : string) (ls : LocalStorage) : LocalStorage * Result unit :=
  if available ls then
    ({| items := delete key (items ls); available := true; full := full ls |}, Ok tt)
  else (ls, Throw "SecurityError").

Definition rbind {A B} (r : Result A) (k : A -> Result B) : Result B :=
  match r with Ok a => k a | Throw m => Throw m end.

(** [try { body } catch (error) { handler }]. *)
Definition js_try {A} (body : Result A) (handler : string -> Result A) : Result A :=
  match body with Ok a => Ok a | Throw m => handler m end.

(** A [try] around a write: the store as the write left it, the error
    swallowed. *)
Definition try_write (w : LocalStorage * Result unit) : LocalStorage := fst w.

Definition ALL_CHATS_KEY : string := "neuramorphosis_allChats".
Definition ACTIVE_CHAT_ID_KEY : string := "neuramorphosis_activeChatId".
Definition CUSTOM_CSS_KEY : string := "neuramorphosis_customCSS".
Definition BASE_THEME_KEY : string := "neuramorphosis_baseTheme".
Definition ACCENT_THEME_KEY : string := "neuramorphosis_accentTheme".
Definition TARGET_LANGUAGE_KEY : string := "neuramorphosis_targetLanguage".
(** The key of the second block of the file (lines 120-199), which repeats
    the chat and CSS functions and adds [saveTheme]/[loadTheme]. *)
Definition THEME_KEY : string := "neuramorphosis_theme".

Local Set Warnings "-register-all".

(** JSON values, as [JSON.parse] returns them. *)
Inductive json :=
| JNull
| JBool (b : bool)
| JNumber (z : Z)
| JString (s : string)
| JArray (elems : list json)
| JObject (fields : list (string * json)).

Section WithJson.

(** [JSON.stringify] and [JSON.parse] ([None]: the text is not valid JSON,
    and [JSON.parse] throws a [SyntaxError]). *)
Variable JSON_stringify : json -> string.
Variable JSON_parse : string -> option json.

Definition JSON_parse_r (s : string) : Result json :=
  match JSON_parse s with Some v => Ok v | None => Throw "SyntaxError" end.

Definition saveChats (chats : json) (ls : LocalStorage) : LocalStorage :=
  try_write (setItem ALL_CHATS_KEY (JSON_stringify chats) ls).

(** [chatsJson ? JSON.parse(chatsJson) : []] inside [try]. *)
Definition loadChats (ls : LocalStorage) : Result json :=
  js_try (rbind (getItem ALL_CHATS_KEY ls) (fun chatsJson =>
            match chatsJson with
            | Some s => if String.eqb s "" then Ok (JArray []) else JSON_parse_r s
            | None => Ok (JArray [])
            end))
         (fun _ => Ok (JArray [])).

End WithJson.

Definition saveActiveChatId (id : option string) (ls : LocalStorage) : LocalStorage :=
  match id with
  | Some i => if String.eqb i "" then try_write (removeItem ACTIVE_CHAT_ID_KEY ls)
              else try_write (setItem ACTIVE_CHAT_ID_KEY i ls)
  | None => try_write (removeItem ACTIVE_CHAT_ID_KEY ls)
  end.

Definition loadActiveChatId (ls : LocalStorage) : Result (option string) :=
  js_try (getItem ACTIVE_CHAT_ID_KEY ls) (fun _ => Ok None).

Definition saveCustomCSS (css : string) (ls : LocalStorage) : LocalStorage :=
  try_write (setItem CUSTOM_CSS_KEY css ls).

Definition loadCustomCSS (ls : LocalStorage) : Result string :=
  js_try (rbind (getItem CUSTOM_CSS_KEY ls) (fun css => Ok (opt_or_else css "")))
         (fun _ => Ok "").

(** [BaseTheme] and [AccentTheme] (api/proxy.ts): string unions. *)
Inductive BaseTheme := Light | Dark.
Inductive AccentTheme := AccentDefault | AccentBlue | AccentGreen.

Definition BaseTheme_string (t : BaseTheme) : string :=
  match t with Light => "light" | Dark => "dark" end.

Definition AccentTheme_string (t : AccentTheme) : string :=
  match t with AccentDefault => "default" | AccentBlue => "blue" | AccentGreen => "green" end.

Definition saveBaseTheme (theme : BaseTheme) (ls : LocalStorage) : LocalStorage :=
  try_write (setItem BASE_THEME_KEY (BaseTheme_string theme) ls).

(** [getItem(...) as BaseTheme | null]: the cast checks nothing. *)
Definition loadBaseTheme (ls : LocalStorage) : Result (option string) :=
  js_try (getItem BASE_THEME_KEY ls) (fun _ => Ok None).

Definition saveAccentTheme (theme : AccentTheme) (ls : LocalStorage) : LocalStorage :=
  try_write (setItem ACCENT_THEME_KEY (AccentTheme_string theme) ls).

Definition loadAccentTheme (ls : LocalStorage) : Result (option string) :=
  js_try (getItem ACCENT_THEME_KEY ls) (fun _ => Ok None).

Definition saveTargetLanguage (languageCode : string) (ls : LocalStorage) : LocalStorage :=
  try_write (setItem TARGET_LANGUAGE_KEY languageCode ls).

Definition loadTargetLanguage (ls : LocalStorage) : Result (option string) :=
  js_try (getItem TARGET_LANGUAGE_KEY ls) (fun _ => Ok None).

Definition saveTheme (theme : string) (ls : LocalStorage) : LocalStorage :=
  try_write (setItem THEME_KEY theme ls).

Definition loadTheme (ls : LocalStorage) : Result (option string) :=
  js_try (getItem THEME_KEY ls) (fun _ => Ok None).

(** The preferences of [App] (unnamed/part_002, lines 100-130): the
    initial state of each on mount, and the setters the settings page
    calls.  Themes are held as the strings stored. *)
Record Prefs := {
  pf_baseTheme : string;
  pf_accentTheme : string;
  pf_customCSS : string;
  pf_targetLanguage : string;
  pf_thinkingBudget : Z;
  pf_currentChatModel : string
}.

Definition DEFAULT_TARGET_LANGUAGE : string := "none".

(** [load() || fallback] for a load returning [string | null]. *)
Definition or_default (r : Result (option string)) (d : string) : Result string :=
  rbind r (fun v => Ok (opt_or_else v d)).

(** The [useState] initialisers, run on mount. *)
Definition app_init_prefs (ls : LocalStorage) : Result Prefs :=
  rbind (or_default (loadBaseTheme ls) "dark") (fun baseTheme =>
  rbind (or_default (loadAccentTheme ls) "default") (fun accentTheme =>
  rbind (loadCustomCSS ls) (fun customCSS =>
  rbind (or_default (loadTargetLanguage ls) DEFAULT_TARGET_LANGUAGE) (fun targetLanguage =>
  Ok {| pf_baseTheme := baseTheme; pf_accentTheme := accentTheme;
        pf_customCSS := customCSS; pf_targetLanguage := targetLanguage;
        pf_thinkingBudget := 0%Z;
        pf_currentChatModel := Gemini.DEFAULT_CHAT_MODEL |})))).

Definition with_baseTheme (p : Prefs) (v : string) : Prefs :=
  {| pf_baseTheme := v; pf_accentTheme := pf_accentTheme p; pf_customCSS := pf_customCSS p;
     pf_targetLanguage := pf_targetLanguage p; pf_thinkingBudget := pf_thinkingBudget p;
     pf_currentChatModel := pf_currentChatModel p |}.

Definition with_accentTheme (p : Prefs) (v : string) : Prefs :=
  {| pf_baseTheme := pf_baseTheme p; pf_accentTheme := v; pf_customCSS := pf_customCSS p;
     pf_targetLanguage := pf_targetLanguage p; pf_thinkingBudget := pf_thinkingBudget p;
     pf_currentChatModel := pf_currentChatModel p |}.

Definition with_customCSS (p : Prefs) (v : string) : Prefs :=
  {| pf_baseTheme := pf_baseTheme p; pf_accentTheme := pf_accentTheme p; pf_customCSS := v;
     pf_targetLanguage := pf_targetLanguage p; pf_thinkingBudget := pf_thinkingBudget p;
     pf_currentChatModel := pf_currentChatModel p |}.

Definition with_targetLanguage (p : Prefs) (v : string) : Prefs :=
  {| pf_baseTheme := pf_baseTheme p; pf_accentTheme := pf_accentTheme p;
     pf_customCSS := pf_customCSS p; pf_targetLanguage := v;
     pf_thinkingBudget := pf_thinkingBudget p; pf_currentChatModel := pf_currentChatModel p |}.

Definition with_thinkingBudget (p : Prefs) (v : Z) : Prefs :=
  {| pf_baseTheme := pf_baseTheme p; pf_accentTheme := pf_accentTheme p;
     pf_customCSS := pf_customCSS p; pf_targetLanguage := pf_targetLanguage p;
     pf_thinkingBudget := v; pf_currentChatModel := pf_currentChatModel p |}.

Definition with_currentChatModel (p : Prefs) (v : string) : Prefs :=
  {| pf_baseTheme := pf_baseTheme p; pf_accentTheme := pf_accentTheme p;
     pf_customCSS := pf_customCSS p; pf_targetLanguage := pf_targetLanguage p;
     pf_thinkingBudget := pf_thinkingBudget p; pf_currentChatModel := v |}.

(** A preference change from the settings page: the new state and the
    store after the save it triggers ([setBaseTheme] and [setAccentTheme]
    through their [useEffect]s, the two [setAndSave...] functions
    directly; [setThinkingBudget] and [setCurrentChatModel] save
    nothing themselves).  A model change also reruns the mount effect
    (its dependency list is [[currentChatModel]]), which reloads the chats
    and may start a new chat, so that the save effects write the chat and
    active-id keys; that rerun is [AppShell.app_mount] and is not part of
    this function, which gives the preference keys only. *)
Inductive PrefChange :=
| SetBaseTheme (t : BaseTheme)
| SetAccentTheme (t : AccentTheme)
| SetCustomCSS (css : string)
| SetTargetLanguage (code : string)
| SetThinkingBudget (b : Z)
| SetCurrentChatModel (m : string).

Definition app_change (c : PrefChange) (p : Prefs) (ls : LocalStorage) : Prefs * LocalStorage :=
  match c with
  | SetBaseTheme t => (with_baseTheme p (BaseTheme_string t), saveBaseTheme t ls)
  | SetAccentTheme t => (with_accentTheme p (AccentTheme_string t), saveAccentTheme t ls)
  | SetCustomCSS css => (with_customCSS p css, saveCustomCSS css ls)
  | SetTargetLanguage code => (with_targetLanguage p code, saveTargetLanguage code ls)
  | SetThinkingBudget b => (with_thinkingBudget p b, ls)
  | SetCurrentChatModel m => (with_currentChatModel p m, ls)
  end.

End Storage.

(** Concrete stores, and the preferences a reload is expected to give. *)
Module StorageScenario.
Import Storage.

(** A usable, empty store (first visit). *)
Definition ls_empty : LocalStorage := {| items := ∅; available := true; full := false |}.

(** A store the browser has disabled. *)
Definition ls_disabled : LocalStorage := {| items := ∅; available := false; full := false |}.

Definition default_prefs : Prefs :=
  {| pf_baseTheme := "dark"; pf_accentTheme := "default"; pf_customCSS := "";
     pf_targetLanguage := DEFAULT_TARGET_LANGUAGE; pf_thinkingBudget := 0%Z;
     pf_currentChatModel := Gemini.DEFAULT_CHAT_MODEL |}.

(** The preferences read on the next mount after change [c], when the
    mount before it read [q]: the changed one for the four stored
    preferences, nothing new for the other two. *)
Definition reload_after (c : PrefChange) (q : Prefs) : Prefs :=
  match c with
  | SetBaseTheme t => with_baseTheme q (BaseTheme_string t)
  | SetAccentTheme t => with_accentTheme q (AccentTheme_string t)
  | SetCustomCSS css => with_customCSS q css
  | SetTargetLanguage code => with_targetLanguage q code
  | SetThinkingBudget _ => q
  | SetCurrentChatModel _ => q
  end.

(** The values the settings page can choose: a language code is never
    empty. *)
Definition valid_change (c : PrefChange) : Prop :=
  match c with
  | SetTargetLanguage code => code <> ""
  | _ => True
  end.

(** A stand-in codec for the empty list. *)
Definition empty_list_stringify (_ : json) : string := "[]".
Definition empty_list_parse (s : string) : option json :=
  if String.eqb s "[]" then Some (JArray []) else None.

End StorageScenario.

(* ------------------------------------------------------------------ *)
(** ** Conversation management of [App] (unnamed/part_002) *)

Module AppShell.
Import ChatTurn Gemini.

(** [createAppInitialWelcomeText(modelIdForWelcome)]. *)
Definition createAppInitialWelcomeText (modelIdForWelcome : string) : string :=
  let friendlyName := getFriendlyModelName modelIdForWelcome in
  INITIAL_AI_WELCOME_TEXT_BASE +:+ " You are currently the '" +:+ friendlyName
  +:+ "' model. How can I help you today? You can use **Markdown** for *formatting*! "
  +:+ newline +:+ newline +:+ "I am a text-based assistant.".

(** [createNewWelcomeMessage(modelIdForWelcome)]; [now] is the decimal
    text of [Date.now()]. *)
Definition createNewWelcomeMessage (modelIdForWelcome now : string) : ChatMessageContent :=
  {| msg_id := "ai-welcome-" +:+ now; msg_text := createAppInitialWelcomeText modelIdForWelcome;
     msg_sender := AI; msg_isStreaming := Some false; msg_isError := None;
     msg_thinkingDetails := None |}.

(** [mapMessagesToGeminiHistory(messages)]: the [for] loop, with its two
    [continue]s. *)
Fixpoint mapMessagesToGeminiHistory (messages : list ChatMessageContent) : list HistoryItem :=
  match messages with
  | [] => []
  | msg :: rest =>
      if (Sender_eqb (msg_sender msg) AI &&
          startsWith (msg_text msg) INITIAL_AI_WELCOME_TEXT_BASE)%bool
      then mapMessagesToGeminiHistory rest
      else
        let textForHistory := msg_text msg in
        if String.eqb (trim textForHistory) "" then mapMessagesToGeminiHistory rest
        else
          let currentMessageParts :=
            if String.eqb textForHistory "" then [] else [textForHistory] in
          match currentMessageParts with
          | [] => mapMessagesToGeminiHistory rest
          | _ :: _ =>
              {| hi_role := if Sender_eqb (msg_sender msg) User then "user" else "model";
                 hi_parts := currentMessageParts |} :: mapMessagesToGeminiHistory rest
          end
  end.

(** The request [handleSendMessage] makes once its first updates are
    queued (lines 331-338): [sendMessageToChatStream] of the proxy flavour,
    given [historyForChatApi.slice(0, -1)] ([removelast]).  [None] is the
    early return. *)
Definition handleSendMessage_request (s : AppState) (inputText now1 now2 : string)
    : option Proxy.ProxyRequest :=
  match handleSendMessage_start s inputText now1 now2 with
  | None => None
  | Some (_, t) =>
      let historyForChatApi := mapMessagesToGeminiHistory (tr_updatedMessagesWithUser t) in
      Some (Proxy.sendMessageToChatStream (Proxy.MsgText inputText) (removelast historyForChatApi)
              (st_currentChatModel s) (Some (st_thinkingBudget s)))
  end.

(** [App]'s state with the parts the conversation handlers also write:
    the welcome-text ref, the sidebar, the text handed to the
    summarization editor and the summarize modal. *)
Record UI := {
  ui_app : AppState;
  ui_welcomeRef : string;
  ui_isSidebarOpen : bool;
  ui_textToSummarizeForEditor : option string;
  ui_isSummarizeModalOpen : bool
}.

Definition ui_with_app (u : UI) (s : AppState) : UI :=
  {| ui_app := s; ui_welcomeRef := ui_welcomeRef u; ui_isSidebarOpen := ui_isSidebarOpen u;
     ui_textToSummarizeForEditor := ui_textToSummarizeForEditor u;
     ui_isSummarizeModalOpen := ui_isSummarizeModalOpen u |}.

(** The welcome text a loaded conversation sets [appInitialWelcomeTextRef] to. *)
Definition welcomeRefFor (msgs : list ChatMessageContent) (currentChatModel : string) : string :=
  match msgs with
  | m :: _ =>
      if (Sender_eqb (msg_sender m) AI && startsWith (msg_text m) INITIAL_AI_WELCOME_TEXT_BASE)%bool
      then msg_text m else createAppInitialWelcomeText currentChatModel
  | [] => createAppInitialWelcomeText currentChatModel
  end.

(** [switchChat(chatId)] with the state [ChatTurn.switchChat] leaves out. *)
Definition switchChatUI (u : UI) (chatId : string) : UI :=
  match find (fun c => String.eqb (chat_id c) chatId) (st_allChats (ui_app u)) with
  | Some chatToLoad =>
      {| ui_app := switchChat (ui_app u) chatId;
         ui_welcomeRef := welcomeRefFor (chat_messages chatToLoad) (st_currentChatModel (ui_app u));
         ui_isSidebarOpen := false; ui_textToSummarizeForEditor := None;
         ui_isSummarizeModalOpen := ui_isSummarizeModalOpen u |}
  | None => u
  end.

(** [startNewChat()]; [nowChat] and [nowWelcome] are the two [Date.now()]
    readings, [isoNow] is [new Date().toISOString()].  [setAllChats] takes
    an updater, so it applies to the latest queued list. *)
Definition startNewChat (u : UI) (nowChat nowWelcome isoNow : string) : UI :=
  let s := ui_app u in
  let newChatId := "chat-" +:+ nowChat in
  let welcomeMessage := createNewWelcomeMessage (st_currentChatModel s) nowWelcome in
  let newChat := {| chat_id := newChatId; chat_title := "New Chat"; chat_createdAt := isoNow;
                    chat_messages := [welcomeMessage];
                    chat_aiMessagesSinceLastTitleUpdate := Some 0 |} in
  let s1 := setCurrentChatId (setMessages s [welcomeMessage]) (Some newChatId) in
  let s2 := setAllChats s1
              (newChat :: List.filter (fun c => negb (String.eqb (chat_id c) newChatId)) (st_allChats s1)) in
  let s3 := setCurrentView (setIsLoading (setError s2 None) false) ViewChat in
  {| ui_app := s3; ui_welcomeRef := createAppInitialWelcomeText (st_currentChatModel s);
     ui_isSidebarOpen := if ui_isSidebarOpen u then false else ui_isSidebarOpen u;
     ui_textToSummarizeForEditor := None;
     ui_isSummarizeModalOpen := ui_isSummarizeModalOpen u |}.

(** [deleteChat(chatIdToDelete)].  The [switchChat] it calls reads the
    [allChats] of the render (the list before the deletion); the
    [startNewChat] updater sees the filtered list. *)
Definition deleteChat (u : UI) (chatIdToDelete nowChat nowWelcome isoNow : string) : UI :=
  let updatedChats :=
    List.filter (fun c => negb (String.eqb (chat_id c) chatIdToDelete)) (st_allChats (ui_app u)) in
  let is_current := match st_currentChatId (ui_app u) with
                    | Some c => String.eqb c chatIdToDelete | None => false end in
  if is_current then
    match updatedChats with
    | c :: _ => ui_with_app (switchChatUI u (chat_id c))
                  (setAllChats (ui_app (switchChatUI u (chat_id c))) updatedChats)
    | [] => startNewChat (ui_with_app u (setAllChats (ui_app u) updatedChats))
              nowChat nowWelcome isoNow
    end
  else ui_with_app u (setAllChats (ui_app u) updatedChats).

(** The mount effect (lines 152-171), given what [loadChats] and
    [loadActiveChatId] returned. *)
Definition app_mount (u : UI) (loadedChats : list StoredChat) (activeId : option string)
    (nowChat nowWelcome isoNow : string) : UI :=
  let u1 := ui_with_app u (setAllChats (ui_app u) loadedChats) in
  match activeId with
  | Some a =>
      if (negb (String.eqb a "") && existsb (fun chat => String.eqb (chat_id chat) a) loadedChats)%bool
      then
        match find (fun chat => String.eqb (chat_id chat) a) loadedChats with
        | Some activeChat =>
            {| ui_app := setCurrentChatId (setMessages (ui_app u1) (chat_messages activeChat))
                           (Some (chat_id activeChat));
               ui_welcomeRef := welcomeRefFor (chat_messages activeChat)
                                  (st_currentChatModel (ui_app u1));
               ui_isSidebarOpen := ui_isSidebarOpen u1;
               ui_textToSummarizeForEditor := ui_textToSummarizeForEditor u1;
               ui_isSummarizeModalOpen := ui_isSummarizeModalOpen u1 |}
        | None => u1
        end
      else startNewChat u1 nowChat nowWelcome isoNow
  | None => startNewChat u1 nowChat nowWelcome isoNow
  end.

(** [currentChatTitle] (a [useMemo]), given [isTitleLoading]. *)
Definition currentChatTitle (s : AppState) (isTitleLoading : bool) : string :=
  let chat := match st_currentChatId s with
              | Some cid => find (fun c => String.eqb (chat_id c) cid) (st_allChats s)
              | None => None
              end in
  let untitled (c : StoredChat) :=
    (String.eqb (chat_title c) "" || String.eqb (chat_title c) "New Chat")%bool in
  let withModel := "Chat with " +:+ getFriendlyModelName (st_currentChatModel s) in
  if (isTitleLoading && match chat with None => true | Some c => untitled c end)%bool
  then "Generating title..."
  else
    match chat with
    | Some c =>
        if (untitled c && (Nat.eqb (length (st_messages s)) 0 || isEffectivelyNewChat s))%bool
        then withModel
        else or_else (chat_title c) withModel
    | None => withModel
    end.

(** [handleOpenSummarizationEditor(textToSummarize)] ([closeSummarizeModal]
    included). *)
Definition handleOpenSummarizationEditor (u : UI) (textToSummarize : string) : UI :=
  if String.eqb (trim textToSummarize) "" then
    {| ui_app := setError (ui_app u) (Some "Cannot summarize empty text.");
       ui_welcomeRef := ui_welcomeRef u; ui_isSidebarOpen := ui_isSidebarOpen u;
       ui_textToSummarizeForEditor := ui_textToSummarizeForEditor u;
       ui_isSummarizeModalOpen := false |}
  else
    {| ui_app := setCurrentView (ui_app u) ViewSummarizer;
       ui_welcomeRef := ui_welcomeRef u;
       ui_isSidebarOpen := if ui_isSidebarOpen u then false else ui_isSidebarOpen u;
       ui_textToSummarizeForEditor := Some textToSummarize;
       ui_isSummarizeModalOpen := false |}.

Definition handleCloseSummarizationEditor (u : UI) : UI :=
  {| ui_app := setCurrentView (ui_app u) ViewChat; ui_welcomeRef := ui_welcomeRef u;
     ui_isSidebarOpen := ui_isSidebarOpen u; ui_textToSummarizeForEditor := None;
     ui_isSummarizeModalOpen := ui_isSummarizeModalOpen u |}.

(** The editor is rendered when [currentView === 'summarizer' &&
    textToSummarizeForEditor] (a non-empty string), with that text. *)
Definition editorShown (u : UI) : option string :=
  match st_currentView (ui_app u), ui_textToSummarizeForEditor u with
  | ViewSummarizer, Some t => if String.eqb t "" then None else Some t
  | _, _ => None
  end.

End AppShell.

(* ------------------------------------------------------------------ *)
(** ** Summarization editor: [handleSummarize] and [handleExportSummary]
    (unnamed/part_000) *)

Module Summarizer.

(** The editor state [handleSummarize] writes. *)
Record Summary := {
  sm_displayText : string;
  sm_isSummarizing : bool;
  sm_summaryError : option string;
  sm_isSummaryComplete : bool
}.

Definition set_displayText (sm : Summary) (t : string) : Summary :=
  {| sm_displayText := t; sm_isSummarizing := sm_isSummarizing sm;
     sm_summaryError := sm_summaryError sm; sm_isSummaryComplete := sm_isSummaryComplete sm |}.

Definition set_summaryError (sm : Summary) (e : option string) : Summary :=
  {| sm_displayText := sm_displayText sm; sm_isSummarizing := sm_isSummarizing sm;
     sm_summaryError := e; sm_isSummaryComplete := sm_isSummaryComplete sm |}.

Definition set_flags (sm : Summary) (summarizing complete : bool) : Summary :=
  {| sm_displayText := sm_displayText sm; sm_isSummarizing := summarizing;
     sm_summaryError := sm_summaryError sm; sm_isSummaryComplete := complete |}.

(** One iteration of the [for await] loop, over the editor, the local
    [currentSummaryAccumulator] and [firstChunkReceived]. *)
Definition summarizeChunk (st : Summary * string * bool) (chunk : option string)
    : Summary * string * bool :=
  let '(sm, acc, firstChunkReceived) := st in
  match chunk with
  | Some t =>
      if String.eqb t "" then st
      else if negb firstChunkReceived then (set_displayText sm t, t, true)
      else (set_displayText sm (acc +:+ t), acc +:+ t, true)
  | None => st
  end.

(** [handleSummarize()]: [aiInstance] tells whether the client was built;
    the stream yields [chunks] and then ends as [fin] (a throw of
    [generateContentStream] itself is [fin] with no chunk). *)
Definition handleSummarize (aiInstance : bool) (originalText : string) (sm : Summary)
    (chunks : list (option string)) (fin : StreamEnd) : Summary :=
  if (negb aiInstance || String.eqb (trim originalText) "" || sm_isSummarizing sm)%bool then
    if String.eqb (trim originalText) "" then
      set_summaryError sm (Some "Original text is empty, nothing to summarize.")
    else if negb aiInstance then set_summaryError sm (Some "AI service not initialized.")
    else sm
  else
    let sm1 := set_flags (set_summaryError sm None) true false in
    let '(sm2, acc, firstChunkReceived) := fold_left summarizeChunk chunks (sm1, "", false) in
    let sm3 :=
      match fin with
      | StreamDone =>
          if (negb firstChunkReceived && String.eqb acc "")%bool
          then set_summaryError (set_displayText sm2 "") (Some "AI returned an empty summary.")
          else sm2
      | StreamThrew message =>
          set_summaryError sm2 (Some ("Summarization failed: " +:+ opt_or_else message "Unknown error"))
      end in
    set_flags sm3 false true.

(** [handleExportSummary()]: the text of the downloaded [summary.txt], or
    [None] for the alert. *)
Definition handleExportSummary (sm : Summary) : option string :=
  if (String.eqb (trim (sm_displayText sm)) "" || negb (sm_isSummaryComplete sm))%bool
  then None else Some (sm_displayText sm).

(** The editor as it is mounted with [originalText]. *)
Definition initialSummary (originalText : string) : Summary :=
  {| sm_displayText := originalText; sm_isSummarizing := false; sm_summaryError := None;
     sm_isSummaryComplete := false |}.

End Summarizer.

(** Concrete inputs for the conversation handlers. *)
Module AppScenario.
Import ChatTurn AppShell.

(** The app of [TurnScenario.s0] (conversation A shown, B stored). *)
Definition ui0 : UI :=
  {| ui_app := TurnScenario.s0; ui_welcomeRef := createAppInitialWelcomeText "gemini-2.5-flash";
     ui_isSidebarOpen := true; ui_textToSummarizeForEditor := None;
     ui_isSummarizeModalOpen := false |}.

(** The current conversation is one of the stored ones. *)
Definition current_is_stored (s : AppState) : bool :=
  match st_currentChatId s with
  | Some cid => existsb (fun c => String.eqb (chat_id c) cid) (st_allChats s)
  | None => false
  end.

End AppScenario.

(** The number of occurrences of [c] in [s], which fixes how many pieces
    [split_char c s] has. *)
Module SplitCount.
Abbreviation occ c s := (count_occ ascii_dec (list_ascii_of_string s) c).
End SplitCount.

(* ------------------------------------------------------------------ *)
(** ** Facts about the string model *)

(** stdpp keeps [String.append] from unfolding under [simpl]; these two
    equations are its defining clauses. *)
Lemma str_app_nil_l (s : string) : "" +:+ s = s.
Proof. reflexivity. Qed.

Lemma str_app_cons (a : ascii) (s t : string) : String a s +:+ t = String a (s +:+ t).
Proof. reflexivity. Qed.

Lemma str_app_nil_r (s : string) : s +:+ "" = s.
Proof. induction s as [|a s IH]; [reflexivity|]. now rewrite str_app_cons, IH. Qed.

Lemma str_app_assoc (a b c : string) : a +:+ (b +:+ c) = (a +:+ b) +:+ c.
Proof.
  induction a as [|x a IH]; [reflexivity|].
  now rewrite !str_app_cons, IH.
Qed.

Lemma str_eqb_refl (s : string) : String.eqb s s = true.
Proof. apply String.eqb_eq. reflexivity. Qed.

Lemma str_app_eq_nil (a b : string) : a +:+ b = "" -> a = "" /\ b = "".
Proof. destruct a; [auto | rewrite str_app_cons; discriminate]. Qed.


(** A chunk whose text is empty or absent is skipped by every loop. *)
Lemma chunk_text_empty (c : option string) :
  (c = None \/ exists t, c = Some t /\ String.eqb t "" = true) -> chunk_text c = "".
Proof.
  intros [-> | (t & -> & Ht)]; [reflexivity|].
  simpl. now apply String.eqb_eq.
Qed.

Module FollowUpFacts.
Import SummaryFollowUp.

Lemma followUpLoop_app (s : LoopState) xs ys :
  followUpLoop s (xs ++ ys) = followUpLoop (followUpLoop s xs) ys.
Proof. unfold followUpLoop. apply fold_left_app. Qed.

(** In NORMAL mode, chunks without the command go to the follow-up answer. *)
Lemma loop_normal (cs : list (option string)) :
  forall e r c,
  isReplacingSummaryRef e = false -> followUpResponse e = c ->
  Forall (fun x => has_marker x = false) cs ->
  match followUpLoop (e, r, c) cs with
  | (e', r', c') =>
      isReplacingSummaryRef e' = false /\ r' = r /\ c' = c +:+ concat_chunks cs /\
      followUpResponse e' = c' /\ displayText e' = displayText e
  end.
Proof.
  induction cs as [|x cs IH]; intros e r c Hrep Hresp Hall.
  - simpl. rewrite str_app_nil_r. auto.
  - inversion Hall as [|? ? Hx Hcs]; subst.
    destruct x as [t|]; simpl in Hx |- *.
    + destruct (String.eqb t "") eqn:Ht.
      * apply String.eqb_eq in Ht; subst t. simpl. now apply IH.
      * rewrite Hrep, Hx. simpl.
        specialize (IH (set_followUpResponse e (followUpResponse e +:+ t)) r
                      (followUpResponse e +:+ t) Hrep eq_refl Hcs).
        unfold followUpLoop in IH |- *.
        destruct (fold_left _ _ _) as [[e' r'] c'].
        destruct IH as (H1 & H2 & H3 & H4 & H5).
        repeat split; auto. now rewrite H3, str_app_assoc.
    + now apply IH.
Qed.

(** In REPLACING mode every chunk goes to the revised summary, which is
    shown as soon as it is non-empty. *)
Lemma loop_replacing (cs : list (option string)) :
  forall e r c,
  isReplacingSummaryRef e = true ->
  match followUpLoop (e, r, c) cs with
  | (e', r', c') =>
      isReplacingSummaryRef e' = true /\ r' = r +:+ concat_chunks cs /\
      followUpResponse e' = followUpResponse e /\
      (displayText e' = r' \/ (displayText e' = displayText e /\ concat_chunks cs = ""))
  end.
Proof.
  induction cs as [|x cs IH]; intros e r c Hrep.
  - simpl. rewrite str_app_nil_r. intuition.
  - destruct x as [t|]; simpl.
    + destruct (String.eqb t "") eqn:Ht.
      * apply String.eqb_eq in Ht; subst t. simpl. now apply IH.
      * rewrite Hrep. simpl.
        specialize (IH (set_displayText e (r +:+ t)) (r +:+ t) c Hrep).
        unfold followUpLoop in IH |- *.
        destruct (fold_left _ _ _) as [[e' r'] c'].
        destruct IH as (H1 & H2 & H3 & H4).
        rewrite <- str_app_assoc in H2.
        repeat split; auto.
        destruct H4 as [H4 | [H4 H5]]; [left; congruence|].
        left. rewrite H4, H2, H5. simpl. now rewrite str_app_nil_r.
    + now apply IH.
Qed.

End FollowUpFacts.

Module FollowUpClaims.
Import SummaryFollowUp FollowUpFacts.

Lemma includes_nonempty (d sub : string) :
  sub <> "" -> includes d sub = true -> String.eqb d "" = false.
Proof. intros Hs H. destruct d; [|reflexivity]. destruct sub; [congruence|]. discriminate H. Qed.

(** The first chunk that holds the whole command switches to REPLACING. *)
Lemma marker_step e r c d :
  isReplacingSummaryRef e = false -> includes d REPLACE_SUMMARY_COMMAND = true ->
  match followUpChunk (e, r, c) (Some d) with
  | (e', r', c') =>
      isReplacingSummaryRef e' = true /\ r' = r +:+ after_marker d /\ c' = c /\
      followUpResponse e' = followUpResponse e /\
      (displayText e' = r' \/ (displayText e' = displayText e /\ after_marker d = ""))
  end.
Proof.
  intros Hrep Hinc.
  assert (Hd : String.eqb d "" = false).
  { apply (includes_nonempty d REPLACE_SUMMARY_COMMAND); [|exact Hinc].
    unfold REPLACE_SUMMARY_COMMAND. discriminate. }
  cbn [followUpChunk]. rewrite Hd, Hrep, Hinc. cbn [negb andb].
  fold (after_marker d).
  destruct (String.eqb (after_marker d) "") eqn:Ha; cbn [negb].
  - apply String.eqb_eq in Ha. rewrite Ha, str_app_nil_r. cbn. intuition.
  - cbn. intuition.
Qed.

Lemma followUpLoop_cons (s : LoopState) x xs :
  followUpLoop s (x :: xs) = followUpLoop (followUpChunk s x) xs.
Proof. reflexivity. Qed.

(** C1 (counterexample): with the deltas
    ["answer: [replace_summary_with_", "new_text]\nNew body"] the command
    straddles the chunk boundary; no single chunk includes it, so the
    editor stays in NORMAL mode, the summary is left as it was and the whole
    text, command included, becomes the follow-up answer. *)
Lemma C1_split_marker_not_detected :
  let e := {| displayText := "Old summary"; followUpResponse := "";
              followUpError := None; isAskingFollowUp := false;
              didFollowUpActAsReplacement := false;
              isReplacingSummaryRef := false |} in
  let e' := handleAskFollowUp true "Shorter please" true e
              [Some "answer: [replace_summary_with_";
               Some ("new_text]" +:+ newline +:+ "New body")] StreamDone in
  isReplacingSummaryRef e' = false /\ displayText e' = "Old summary" /\
 followUpResponse e' = "answer: [replace_summary_with_new_text]" +:+ newline +:+ "New body".
Proof. vm_compute. repeat split. Qed.

(** C1 (amended): the command is recognised only inside a single delta.
    If the first delta that includes it is [d], the run ends in REPLACING
    mode, the follow-up answer holds the earlier deltas, and the summary
    shown is the rest of [d] after the command (leading whitespace
    trimmed) followed by every later delta.  If no delta includes the whole
    command (for instance when it is split across two deltas), the run
    stays in NORMAL mode, the summary is unchanged and every delta goes to
    the follow-up answer. *)
Theorem C1_marker_detected_within_one_delta :
  (forall q e pre d post,
     String.eqb (trim q) "" = false -> String.eqb (trim (displayText e)) "" = false ->
     Forall (fun x => has_marker x = false) pre ->
     includes d REPLACE_SUMMARY_COMMAND = true ->
     let e' := handleAskFollowUp true q true e (pre ++ Some d :: post) StreamDone in
     isReplacingSummaryRef e' = true /\
    displayText e' = after_marker d +:+ concat_chunks post /\
    followUpResponse e' = concat_chunks pre) /\
 (forall q e cs,
     String.eqb (trim q) "" = false -> String.eqb (trim (displayText e)) "" = false ->
     Forall (fun x => has_marker x = false) cs ->
     let e' := handleAskFollowUp true q true e cs StreamDone in
     isReplacingSummaryRef e' = false /\ displayText e' = displayText e /\
    followUpResponse e' = concat_chunks cs).
Proof.
  split.
  - intros q e pre d post Hq He Hpre Hd e'. subst e'.
    unfold handleAskFollowUp. rewrite Hq, He. cbn [negb orb].
    rewrite followUpLoop_app, followUpLoop_cons.
    match goal with |- context [followUpLoop (?e0, "", "") pre] =>
      pose proof (loop_normal pre e0 "" "" eq_refl eq_refl Hpre) as Hn;
      destruct (followUpLoop (e0, "", "") pre) as [[e1 r1] c1] end.
    destruct Hn as (Hn1 & -> & Hc1 & Hn4 & Hn5).
    pose proof (marker_step e1 "" c1 d Hn1 Hd) as Hm.
    destruct (followUpChunk (e1, "", c1) (Some d)) as [[e2 r2] c2].
    destruct Hm as (Hm1 & -> & Hc2 & Hm4 & Hm5).
    pose proof (loop_replacing post e2 ("" +:+ after_marker d) c2 Hm1) as Hr.
    destruct (followUpLoop (e2, _, c2) post) as [[e3 r3] c3].
    destruct Hr as (Hr1 & -> & Hr3 & Hr4).
    rewrite Hr1. cbn [andb].
    rewrite str_app_nil_l in *.
    destruct (String.eqb (after_marker d +:+ concat_chunks post) "") eqn:Hz;
      cbn; (split; [assumption|split]).
    + symmetry. now apply String.eqb_eq.
    + rewrite Hr3, Hm4, Hn4, Hc1. reflexivity.
    + destruct Hr4 as [Hr4 | [Hr4 Hc]]; [exact Hr4|].
      destruct Hm5 as [Hm5 | [_ Ha]].
      * rewrite Hr4, Hm5, Hc. symmetry. apply str_app_nil_r.
      * rewrite Ha, Hc in Hz. discriminate Hz.
    + rewrite Hr3, Hm4, Hn4, Hc1. reflexivity.
  - intros q e cs Hq He Hcs e'. subst e'.
    unfold handleAskFollowUp. rewrite Hq, He. cbn [negb orb].
    match goal with |- context [followUpLoop (?e0, "", "") cs] =>
      pose proof (loop_normal cs e0 "" "" eq_refl eq_refl Hcs) as Hn;
      destruct (followUpLoop (e0, "", "") cs) as [[e1 r1] c1] end.
    destruct Hn as (Hn1 & -> & -> & Hn4 & Hn5).
    rewrite Hn1. cbn. auto.
Qed.

End FollowUpClaims.

Module TurnFacts.
Import ChatTurn.








(** Message-list facts for the updates of one message id. *)
Lemma map_message_absent id f (l : list ChatMessageContent) :
  Forall (fun m => msg_id m <> id) l -> map_message id f l = l.
Proof.
  induction 1 as [|m l Hm _ IH]; [reflexivity|].
  cbn. destruct (String.eqb (msg_id m) id) eqn:E.
  - apply String.eqb_eq in E. contradiction.
  - f_equal. exact IH.
Qed.

Lemma find_message_absent id (l : list ChatMessageContent) m :
  Forall (fun x => msg_id x <> id) l -> msg_id m = id ->
  find_message id (l ++ [m]) = Some m.
Proof.
  intros Hl Hm. induction Hl as [|x l Hx _ IH].
  - cbn. subst id. now rewrite str_eqb_refl.
  - cbn. destruct (String.eqb (msg_id x) id) eqn:E.
    + apply String.eqb_eq in E. contradiction.
    + exact IH.
Qed.

(** A [setMessages] on the turn's message when the list ends with it. *)
Lemma turn_setMessages_last s t f P m :
  st_messages s = P ++ [m] -> Forall (fun x => msg_id x <> tr_aiResponseId t) P ->
  msg_id m = tr_aiResponseId t -> msg_id (f m) = msg_id m ->
  turn_setMessages s t f = (setMessages s (P ++ [f m]), [Some (f m)]).
Proof.
  intros Hs HP Hm Hf. unfold turn_setMessages. rewrite Hs.
  unfold map_message. rewrite map_app. fold (map_message (tr_aiResponseId t) f P).
  rewrite map_message_absent by exact HP. cbn.
  rewrite Hm, str_eqb_refl.
  f_equal. f_equal. apply find_message_absent; [exact HP|]. congruence.
Qed.

Lemma turn_chunk_last s t log P m x :
  st_messages s = P ++ [m] -> Forall (fun y => msg_id y <> tr_aiResponseId t) P ->
  msg_id m = tr_aiResponseId t -> String.eqb x "" = false ->
  turn_event (s, t, log) (EvChunk (Some x)) =
  (setMessages s (P ++ [with_text m (tr_accumulatedRegularText t +:+ x)]),
   with_acc t (tr_accumulatedRegularText t +:+ x),
   log ++ [Some (with_text m (tr_accumulatedRegularText t +:+ x))]).
Proof.
  intros Hs HP Hm Hx. cbn [turn_event]. rewrite Hx.
  rewrite (turn_setMessages_last s (with_acc t (tr_accumulatedRegularText t +:+ x))
             (fun m0 => with_text m0 (tr_accumulatedRegularText t +:+ x)) P m Hs HP Hm eq_refl).
  reflexivity.
Qed.

(** After the start the displayed list is the turn's history, then the
    streaming placeholder, which is the only message with the turn's id. *)
Lemma start_messages s input n1 n2 s1 t :
  handleSendMessage_start s input n1 n2 = Some (s1, t) ->
  Forall (fun m => msg_id m <> "ai-" +:+ n2) (st_messages s) ->
  tr_aiResponseId t = "ai-" +:+ n2 /\ tr_accumulatedRegularText t = "" /\
  exists P m, P = tr_updatedMessagesWithUser t /\ st_messages s1 = P ++ [m] /\
    Forall (fun x => msg_id x <> tr_aiResponseId t) P /\
    msg_id m = tr_aiResponseId t /\ msg_text m = "" /\ msg_isStreaming m = Some true /\
    msg_thinkingDetails m = tr_thinkingDetails t.
Proof.
  intros Hstart Hfresh. unfold handleSendMessage_start in Hstart.
  destruct (String.eqb (trim input) "" || st_isLoading s)%bool; [discriminate|].
  injection Hstart as <- <-. cbn [tr_aiResponseId]. split; [reflexivity|split; [reflexivity|]].
  eexists _, _. split; [reflexivity|]. split.
  - cbn [st_messages setMessages tr_updatedMessagesWithUser]. f_equal.
    destruct (st_currentChatId s) as [cid|]; [|reflexivity].
    destruct (isEffectivelyNewChat s); [|reflexivity].
    unfold scheduleTitleUpdate. destruct (_ && _)%bool; reflexivity.
  - repeat split.
    cbn [tr_aiResponseId tr_updatedMessagesWithUser].
    apply Forall_app. split.
    + destruct (isEffectivelyNewChat s); [constructor|exact Hfresh].
    + constructor; [|constructor]. cbn. intros H.
      rewrite str_app_cons in H. discriminate H.
Qed.


Lemma turn_setMessages_fst s t f :
  fst (turn_setMessages s t f) = setMessages s (map_message (tr_aiResponseId t) f (st_messages s)).
Proof. reflexivity. Qed.

Lemma scheduleTitleUpdate_messages c id b s :
  st_messages (scheduleTitleUpdate c id b s) = st_messages s.
Proof. unfold scheduleTitleUpdate. destruct (_ && _)%bool; reflexivity. Qed.

(** The normal end of the stream when the displayed list ends with the
    turn's message: two [setMessages] calls, both with [isStreaming = false]. *)
Lemma finish_done_last s t P m :
  st_messages s = P ++ [m] -> Forall (fun x => msg_id x <> tr_aiResponseId t) P ->
  msg_id m = tr_aiResponseId t ->
  snd (finish_turn s t StreamDone) =
    [Some (with_text_streaming m (tr_accumulatedRegularText t) false);
     Some (finalAiMessage t)] /\
  st_messages (fst (finish_turn s t StreamDone)) = P ++ [finalAiMessage t].
Proof.
  intros Hs HP Hm. unfold finish_turn. cbv zeta.
  rewrite (turn_setMessages_last s t
             (fun x => with_text_streaming x (tr_accumulatedRegularText t) false)
             P m Hs HP Hm eq_refl).
  rewrite (turn_setMessages_last (setMessages s _) t (fun _ => finalAiMessage t) P
             (with_text_streaming m (tr_accumulatedRegularText t) false) eq_refl HP Hm (eq_sym Hm)).
  destruct (tr_chatId t) as [cid|].
  - destruct (commit_turn _ _ _ _ _) as [chats' sched].
    destruct sched; cbn; [rewrite scheduleTitleUpdate_messages|]; auto.
  - cbn. auto.
Qed.







End TurnFacts.

Module TurnClaims.
Import ChatTurn TurnFacts.



(** The turn on the deltas ["Hel", "lo ", "world"]. *)
Definition hello_world_chunks : list TurnEvent :=
  [EvChunk (Some "Hel"); EvChunk (Some "lo "); EvChunk (Some "world")].

(** C3 (counterexample): on the deltas ["Hel", "lo ", "world"] the turn
    issues two updates of the assistant message with [isStreaming = false]
    (the [finally] block, then [finalAiMessage]), not one. *)
Lemma C3_two_terminal_updates :
  length (filter TurnScenario.is_terminal
            (snd (handleSendMessage TurnScenario.s0 "hi" "1" "2" hello_world_chunks StreamDone))) = 2.
Proof. vm_compute. reflexivity. Qed.

(** C3 (amended): for any state in which a message can be sent (and whose
    displayed messages do not already use the new assistant id), the
    deltas ["Hel", "lo ", "world"] give the updates "Hel", "Hello ",
    "Hello world" with [isStreaming = true], then two terminal updates with
    [isStreaming = false] and the text "Hello world"; the final assistant
    message reads "Hello world". *)
Theorem C3_hello_world_fold :
  forall s input n1 n2,
  handleSendMessage_start s input n1 n2 <> None ->
  Forall (fun m => msg_id m <> "ai-" +:+ n2) (st_messages s) ->
  match handleSendMessage s input n1 n2 hello_world_chunks StreamDone with
  | (s', log) =>
      map (option_map (fun m => (msg_text m, msg_isStreaming m))) log =
        [Some ("Hel", Some true); Some ("Hello ", Some true);
         Some ("Hello world", Some true);
         Some ("Hello world", Some false); Some ("Hello world", Some false)] /\
      option_map (fun m => (msg_text m, msg_isStreaming m))
        (find_message ("ai-" +:+ n2) (st_messages s')) = Some ("Hello world", Some false)
  end.
Proof.
  intros s input n1 n2 Hstart Hfresh.
  unfold handleSendMessage.
  destruct (handleSendMessage_start s input n1 n2) as [[s1 t]|] eqn:Hs; [|contradiction].
  destruct (start_messages s input n1 n2 s1 t Hs Hfresh)
    as (Hid & Hacc & P & m & _ & Hm1 & HP & Hmid & Hmtext & Hmstr & _).
  unfold run_turn, hello_world_chunks. cbn [fold_left].
  pose proof (turn_chunk_last s1 t [] P m "Hel" Hm1 HP Hmid eq_refl) as E.
  unfold Log in E. rewrite E. clear E.
  do 2 match goal with
  | |- context [turn_event (setMessages ?s0 (P ++ [?m0]), ?t0, ?l0) (EvChunk (Some ?x))] =>
      let E := fresh "E" in
      pose proof (turn_chunk_last (setMessages s0 (P ++ [m0])) t0 l0 P m0 x eq_refl HP Hmid eq_refl)
        as E;
      unfold Log in E; rewrite E; clear E
  end.
  cbv beta iota zeta.
  match goal with
  | |- context [finish_turn (setMessages ?s0 (P ++ [?m0])) ?t0 StreamDone] =>
      destruct (finish_done_last (setMessages s0 (P ++ [m0])) t0 P m0 eq_refl HP Hmid)
        as [Hlog Hmsgs];
      destruct (finish_turn (setMessages s0 (P ++ [m0])) t0 StreamDone) as [s' l'] eqn:Hf
  end.
  cbn [snd fst] in Hlog, Hmsgs. subst l'. cbv beta iota zeta.
  rewrite Hmsgs, find_message_absent; [|rewrite <- Hid; exact HP|exact Hid].
  cbn [map option_map app msg_text msg_isStreaming with_text with_text_streaming
       finalAiMessage with_acc tr_accumulatedRegularText].
  rewrite Hacc, Hmstr. split; reflexivity.
Qed.

Lemma C3_hello_world_fold_witness :
  handleSendMessage_start TurnScenario.s0 "hi" "1" "2" <> None /\
  match handleSendMessage TurnScenario.s0 "hi" "1" "2" hello_world_chunks StreamDone with
  | (s', log) =>
      map (option_map (fun m => (msg_text m, msg_isStreaming m))) log =
        [Some ("Hel", Some true); Some ("Hello ", Some true);
         Some ("Hello world", Some true);
         Some ("Hello world", Some false); Some ("Hello world", Some false)] /\
      option_map (fun m => (msg_text m, msg_isStreaming m))
        (find_message ("ai-" +:+ "2") (st_messages s')) = Some ("Hello world", Some false)
  end.
Proof.
  split; [vm_compute; discriminate|].
  apply (C3_hello_world_fold TurnScenario.s0 "hi" "1" "2").
  - vm_compute. discriminate.
  - repeat constructor. vm_compute. discriminate.
Defined.

(** C4 (code bug): a stream that delivers "Hel" and then throws "boom".
    The [catch] block sets the message text to "Error: boom", but the
    [finally] block that runs after its [return] writes the accumulated
    text back: the message ends with [isError = true],
    [isStreaming = false] and the text "Hel"; the error string is only in
    the banner ([error]).  The stored conversation is left as it was at the
    start of the turn. *)
Theorem C4_error_text_overwritten_by_finally :
  match handleSendMessage TurnScenario.s0 "hi" "1" "2" [EvChunk (Some "Hel")]
          (StreamThrew (Some "boom")) with
  | (s', _) =>
      option_map (fun m => (msg_text m, msg_isError m, msg_isStreaming m))
        (find_message "ai-2" (st_messages s')) = Some ("Hel", Some true, Some false) /\
      st_error s' = Some "Error: boom" /\ st_isLoading s' = false /\
      TurnScenario.stored_messages "chat-A" (st_allChats s') =
        Some [{| msg_id := "user-1"; msg_text := "hi"; msg_sender := User;
                 msg_isStreaming := None; msg_isError := None;
                 msg_thinkingDetails := None |}]
  end.
Proof. vm_compute. repeat split. Qed.

End TurnClaims.

(* ------------------------------------------------------------------ *)
(** ** The Gemini service *)

Module GeminiFacts.
Import ChatTurn Gemini.

(** With [API_KEY] set, [initializeAI] succeeds and leaves the calls and
    the session as they were. *)
Lemma initializeAI_ok e :
  String.eqb (opt_or_else (API_KEY e) "") "" = false ->
  exists e', initializeAI e = (e', Ok tt) /\ API_KEY e' = API_KEY e /\ ai e' = true /\
             chatSessionInstance e' = chatSessionInstance e /\ requests e' = requests e.
Proof.
  intros Hk. unfold initializeAI. rewrite Hk.
  destruct (ai e) eqn:Ha.
  - exists e. repeat split; assumption.
  - exists (set_ai e). repeat split.
Qed.

Lemma gbind_ok {A B} (m : GM A) (k : A -> GM B) e e' a :
  m e = (e', Ok a) -> gbind m k e = k a e'.
Proof. intros H. unfold gbind. rewrite H. reflexivity. Qed.

(** One [initializeChatSession] call with [API_KEY] set: one [chats.create]
    of the session it returns, which becomes [chatSessionInstance]. *)
Lemma initializeChatSession_ok e modelName history budget :
  String.eqb (opt_or_else (API_KEY e) "") "" = false ->
  exists session,
    snd (initializeChatSession modelName history budget e) = Ok session /\
    API_KEY (fst (initializeChatSession modelName history budget e)) = API_KEY e /\
    chatSessionInstance (fst (initializeChatSession modelName history budget e)) = Some session /\
    requests (fst (initializeChatSession modelName history budget e)) =
      requests e ++ [ChatsCreate session] /\
    cs_model session =
      (if list_includes AVAILABLE_CHAT_MODELS modelName then modelName else DEFAULT_CHAT_MODEL) /\
    thinkingConfig (cs_config session) =
      (if String.eqb (cs_model session) "gemini-2.5-flash" then budget else None).
Proof.
  intros Hk. destruct (initializeAI_ok e Hk) as (e' & He & Hkey & _ & _ & Hreq).
  unfold initializeChatSession. rewrite (gbind_ok _ _ e e' tt He).
  eexists. cbn [fst snd]. split; [reflexivity|]. split; [exact Hkey|].
  split; [reflexivity|]. split; [cbn; rewrite Hreq; reflexivity|].
  split; [reflexivity|].
  cbn [cs_model cs_config thinkingConfig].
  destruct (String.eqb _ "gemini-2.5-flash"); [|reflexivity].
  destruct budget; reflexivity.
Qed.

Lemma split_trim_empty : split_char space (trim "") = [""].
Proof. reflexivity. Qed.

(** More than four pieces means the trimmed text is not empty. *)
Lemma pieces_nonempty t :
  4 < length (split_char space (trim t)) -> String.eqb (trim t) "" = false.
Proof.
  intros Hl. destruct (String.eqb (trim t) "") eqn:E; [|reflexivity].
  apply String.eqb_eq in E. rewrite E in Hl. cbn in Hl. lia.
Qed.

(** [generateFallbackTitle] on a first user message of more than four
    pieces: the first four, joined by spaces, then "...". *)
Lemma fallback_title_long msgs m :
  find (fun msg => Sender_eqb (msg_sender msg) User) msgs = Some m ->
  4 < length (split_char space (trim (msg_text m))) ->
  generateFallbackTitle msgs =
    join " " (firstn 4 (split_char space (trim (msg_text m)))) +:+ "...".
Proof.
  intros Hf Hl. unfold generateFallbackTitle. rewrite Hf.
  destruct (String.eqb (msg_text m) "") eqn:E.
  - apply String.eqb_eq in E. rewrite E in Hl. cbn in Hl. lia.
  - replace (Nat.min (length (split_char space (trim (msg_text m)))) 4) with 4 by lia.
    replace (Nat.ltb 4 (length (split_char space (trim (msg_text m))))) with true
      by (symmetry; apply Nat.ltb_lt; exact Hl).
    reflexivity.
Qed.

(** A failed answer leads to the fallback title. *)
Lemma titleFromResponse_failed msgs r :
  title_failed r = true -> titleFromResponse msgs r = generateFallbackTitle msgs.
Proof.
  destruct r as [|br txt]; [reflexivity|]. cbn [title_failed titleFromResponse].
  destruct (negb (String.eqb (opt_or_else br "") "")); [reflexivity|]. cbn [orb].
  destruct txt as [t|]; [|reflexivity].
  destruct (String.eqb (trim t) ""); [reflexivity|]. cbn [orb negb].
  intros H. rewrite H. reflexivity.
Qed.

End GeminiFacts.

Module GeminiClaims.
Import ChatTurn Gemini GeminiFacts GeminiScenario.

(** C5 (counterexample): two [initializeChatSession] calls with the same
    model, history and budget make two [chats.create] calls: the second
    call is not a no-op. *)
Lemma C5_second_build_not_noop :
  let '(e1, _) := initializeChatSession "gemini-2.5-flash" None (Some 2%Z) env0 in
  let '(e2, _) := initializeChatSession "gemini-2.5-flash" None (Some 2%Z) e1 in
  length (requests e1) = 1 /\ length (requests e2) = 2.
Proof. vm_compute. split; reflexivity. Qed.

(** C5 (amended): with [API_KEY] set, calling [initializeChatSession] twice
    with the same arguments rebuilds the session twice: each call issues
    exactly one more [chats.create], and the second call installs a session
    with the same model, configuration and history as the first. *)
Theorem C5_rebuild_repeats_create :
  forall e modelName history budget,
  String.eqb (opt_or_else (API_KEY e) "") "" = false ->
  let '(e1, r1) := initializeChatSession modelName history budget e in
  let '(e2, r2) := initializeChatSession modelName history budget e1 in
  exists session,
    r1 = Ok session /\ r2 = Ok session /\
    chatSessionInstance e1 = Some session /\ chatSessionInstance e2 = Some session /\
    requests e1 = requests e ++ [ChatsCreate session] /\
    requests e2 = requests e1 ++ [ChatsCreate session].
Proof.
  intros e modelName history budget Hk.
  destruct (initializeChatSession_ok e modelName history budget Hk)
    as (s1 & Hr1 & Hk1 & Hc1 & Hq1 & Hm1 & Ht1).
  destruct (initializeChatSession modelName history budget e) as [e1 r1] eqn:E1.
  cbn [fst snd] in *.
  assert (Hk' : String.eqb (opt_or_else (API_KEY e1) "") "" = false) by (rewrite Hk1; exact Hk).
  destruct (initializeChatSession_ok e1 modelName history budget Hk')
    as (s2 & Hr2 & _ & Hc2 & Hq2 & _ & _).
  destruct (initializeChatSession modelName history budget e1) as [e2 r2] eqn:E2.
  cbn [fst snd] in *.
  (* both calls build the same session value *)
  assert (Hs : s2 = s1).
  { unfold initializeChatSession in E1, E2.
    destruct (initializeAI_ok e Hk) as (a1 & Ha1 & _).
    destruct (initializeAI_ok e1 Hk') as (a2 & Ha2 & _).
    rewrite (gbind_ok _ _ e a1 tt Ha1) in E1. rewrite (gbind_ok _ _ e1 a2 tt Ha2) in E2.
    injection E1 as _ <-. injection E2 as _ <-.
    injection Hr1 as <-. injection Hr2 as <-. reflexivity. }
  subst s2. exists s1. repeat split; assumption.
Qed.

(** C6 (counterexample): the model name "foo" is not in the
    thinking-supported set, yet the session built for it carries the
    thinking budget: an unknown name is replaced by the default model
    gemini-2.5-flash before the check. *)
Lemma C6_unknown_model_gets_budget :
  list_includes THINKING_CONFIG_SUPPORTED_MODELS "foo" = false /\
  match snd (initializeChatSession "foo" None (Some 3%Z) env0) with
  | Ok session => cs_model session = "gemini-2.5-flash" /\
                  thinkingConfig (cs_config session) = Some 3%Z
  | Throw _ => False
  end.
Proof. vm_compute. repeat split. Qed.

(** C6 (amended): [initializeChatSession] first maps a name outside
    [AVAILABLE_CHAT_MODELS] to [DEFAULT_CHAT_MODEL]; the session's
    configuration carries the caller's budget, unchanged, exactly when the
    model it uses is in the thinking-supported set, and no thinking
    parameter otherwise.  The proxy request of [sendMessageToChatStream]
    keeps the caller's model name and carries the budget exactly when that
    name is in the supported set. *)
Theorem C6_thinking_budget_follows_model_used :
  forall e modelName history budget,
  String.eqb (opt_or_else (API_KEY e) "") "" = false ->
  (match snd (initializeChatSession modelName history budget e) with
   | Ok session =>
       cs_model session =
         (if list_includes AVAILABLE_CHAT_MODELS modelName then modelName else DEFAULT_CHAT_MODEL) /\
       thinkingConfig (cs_config session) =
         (if list_includes THINKING_CONFIG_SUPPORTED_MODELS (cs_model session) then budget else None)
   | Throw _ => False
   end) /\
  (forall message hist model b,
     match Proxy.sendMessageToChatStream message hist model b with
     | Proxy.ProxyChat _ _ m config =>
         m = model /\
         thinkingConfig config =
           (if list_includes THINKING_CONFIG_SUPPORTED_MODELS model then b else None)
     | Proxy.ProxyGenerateTitle _ => False
     end).
Proof.
  intros e modelName history budget Hk.
  assert (Hsup : forall x, list_includes THINKING_CONFIG_SUPPORTED_MODELS x =
                           String.eqb x "gemini-2.5-flash").
  { intros x. unfold list_includes, THINKING_CONFIG_SUPPORTED_MODELS. cbn [existsb].
    apply orb_false_r. }
  split.
  - destruct (initializeChatSession_ok e modelName history budget Hk)
      as (s1 & Hr1 & _ & _ & _ & Hm1 & Ht1).
    rewrite Hr1. rewrite Hsup. split; assumption.
  - intros message hist model b. unfold Proxy.sendMessageToChatStream.
    cbn [thinkingConfig]. rewrite Hsup. split; [reflexivity|].
    destruct (String.eqb model _); [|reflexivity]. destruct b; reflexivity.
Qed.

Lemma C6_thinking_budget_follows_model_used_witness :
  String.eqb (opt_or_else (API_KEY env0) "") "" = false /\
  match snd (initializeChatSession "gemini-2.5-pro" None (Some 3%Z) env0) with
  | Ok session =>
      cs_model session = "gemini-2.5-pro" /\ thinkingConfig (cs_config session) = None
  | Throw _ => False
  end.
Proof.
  split; [reflexivity|].
  pose proof (proj1 (C6_thinking_budget_follows_model_used env0 "gemini-2.5-pro" None (Some 3%Z)
                       eq_refl)) as H.
  exact H.
Defined.

Lemma C5_rebuild_repeats_create_witness :
  String.eqb (opt_or_else (API_KEY env0) "") "" = false /\
  let '(e1, r1) := initializeChatSession "gemini-2.5-flash" None (Some 2%Z) env0 in
  let '(e2, r2) := initializeChatSession "gemini-2.5-flash" None (Some 2%Z) e1 in
  exists session,
    r1 = Ok session /\ r2 = Ok session /\
    chatSessionInstance e1 = Some session /\ chatSessionInstance e2 = Some session /\
    requests e1 = requests env0 ++ [ChatsCreate session] /\
    requests e2 = requests e1 ++ [ChatsCreate session].
Proof.
  split; [reflexivity|].
  exact (C5_rebuild_repeats_create env0 "gemini-2.5-flash" None (Some 2%Z) eq_refl).
Defined.

(** C7 (counterexample): the first user message "Plan my  trip to Rome"
    (two spaces after "my") has five words, but [split(' ')] also yields
    an empty piece, so the fallback title after a failed request is
    "Plan my  trip...", not "Plan my trip to...". *)
Lemma C7_double_space_fallback :
  length (filter (fun w => negb (String.eqb w ""))
            (split_char space ("Plan my " +:+ " trip to Rome"))) = 5 /\
  snd (generateChatTitleWithAI (Some rome_chat_two_spaces) INITIAL_AI_WELCOME_TEXT_BASE
         TitleThrows env0) = Ok ("Plan my " +:+ " trip...") /\
  ("Plan my " +:+ " trip...") <> "Plan my trip to...".
Proof. vm_compute. split; [reflexivity|]. split; [reflexivity|discriminate]. Qed.

(** C7 (amended): with [API_KEY] set, when the first user message's trimmed
    text splits at single spaces into more than four pieces and the title
    request fails (it throws, is blocked, or yields no usable text), the
    title is the first four pieces joined by spaces followed by "...", and
    the call returns it without throwing.  [processTitleUpdateQueue] then
    commits that title to the job's conversation (when the job is for a new
    chat or for the current one) and resets its counter. *)
Theorem C7_fallback_title_four_pieces :
  forall e msgs base r m,
  String.eqb (opt_or_else (API_KEY e) "") "" = false ->
  find (fun msg => Sender_eqb (msg_sender msg) User) msgs = Some m ->
  4 < length (split_char space (trim (msg_text m))) ->
  title_failed r = true ->
  snd (generateChatTitleWithAI (Some msgs) base r e) =
    Ok (join " " (firstn 4 (split_char space (trim (msg_text m)))) +:+ "...") /\
  (forall job currentChatId allChats,
     job_messagesForContext job = msgs ->
     (job_isNew job = true \/ currentChatId = Some (job_id job)) ->
     processTitleUpdateQueue (Some job) currentChatId allChats
       (fun ms => snd (generateChatTitleWithAI (Some ms) base r e)) =
     map (fun chat => if String.eqb (chat_id chat) (job_id job)
                      then chat_with_new_title chat
                             (join " " (firstn 4 (split_char space (trim (msg_text m)))) +:+ "...")
                      else chat) allChats).
Proof.
  intros e msgs base r m Hk Hf Hl Hr.
  assert (Hgen : snd (generateChatTitleWithAI (Some msgs) base r e) =
                 Ok (join " " (firstn 4 (split_char space (trim (msg_text m)))) +:+ "...")).
  { destruct (initializeAI_ok e Hk) as (e' & He & _).
    unfold generateChatTitleWithAI. rewrite (gbind_ok _ _ e e' tt He).
    destruct msgs as [|x xs]; [discriminate Hf|].
    rewrite <- (fallback_title_long (x :: xs) m Hf Hl).
    destruct (titleRequest (x :: xs) base); cbn [snd gret].
    - rewrite titleFromResponse_failed by exact Hr. reflexivity.
    - reflexivity. }
  split; [exact Hgen|].
  intros job cur chats Hjob Hcur. unfold processTitleUpdateQueue.
  assert (Hgo : (negb (match cur with Some c => String.eqb (job_id job) c | None => false end)
                 && negb (job_isNew job))%bool = false).
  { destruct Hcur as [Hn|Hc].
    - rewrite Hn. apply andb_false_r.
    - rewrite Hc, String.eqb_refl. reflexivity. }
  rewrite Hgo.
  assert (Huser : existsb (fun m0 => Sender_eqb (msg_sender m0) User &&
                                     negb (String.eqb (trim (msg_text m0)) ""))%bool
                          (job_messagesForContext job) = true).
  { apply existsb_exists. exists m. rewrite Hjob.
    destruct (find_some _ _ Hf) as [Hin Hs]. split; [exact Hin|].
    rewrite Hs, (pieces_nonempty _ Hl). reflexivity. }
  rewrite Huser. cbn [negb andb]. rewrite Hjob, Hgen. reflexivity.
Qed.

Lemma C7_fallback_title_four_pieces_witness :
  String.eqb (opt_or_else (API_KEY env0) "") "" = false /\
  find (fun msg => Sender_eqb (msg_sender msg) User) rome_chat =
    Some (user_msg "user-1" "Plan my trip to Rome") /\
  4 < length (split_char space (trim "Plan my trip to Rome")) /\
  title_failed TitleThrows = true /\
  snd (generateChatTitleWithAI (Some rome_chat) INITIAL_AI_WELCOME_TEXT_BASE TitleThrows env0) =
    Ok "Plan my trip to...".
Proof.
  split; [reflexivity|]. split; [reflexivity|].
  assert (Hl : 4 < length (split_char space (trim "Plan my trip to Rome")))
    by (apply Nat.ltb_lt; vm_compute; reflexivity).
  split; [exact Hl|]. split; [reflexivity|].
  exact (proj1 (C7_fallback_title_four_pieces env0 rome_chat INITIAL_AI_WELCOME_TEXT_BASE
                  TitleThrows (user_msg "user-1" "Plan my trip to Rome") eq_refl eq_refl Hl eq_refl)).
Defined.

(** C9 (counterexample): with [API_KEY] unset, [initializeAI] runs before
    the empty-list check and throws, so the empty list does not give
    "New Chat". *)
Lemma C9_empty_list_throws_without_key :
  snd (generateChatTitleWithAI (Some []) INITIAL_AI_WELCOME_TEXT_BASE TitleThrows env_no_key) =
    Throw "API_KEY environment variable not set. Please ensure it is configured.".
Proof. reflexivity. Qed.

(** C9 (amended): with [API_KEY] set, an empty, [null] or [undefined] list
    gives "New Chat" and no backend call is made; the proxy flavour, which
    has no key check, gives "New Chat" and posts nothing for any answer. *)
Theorem C9_empty_list_new_chat :
  forall e base r msgs,
  String.eqb (opt_or_else (API_KEY e) "") "" = false ->
  msgs = None \/ msgs = Some [] ->
  snd (generateChatTitleWithAI msgs base r e) = Ok "New Chat" /\
  requests (fst (generateChatTitleWithAI msgs base r e)) = requests e /\
  (forall pr, Proxy.generateChatTitleWithAI msgs base pr = ([], "New Chat")).
Proof.
  intros e base r msgs Hk Hm.
  destruct (initializeAI_ok e Hk) as (e' & He & _ & _ & _ & Hreq).
  unfold generateChatTitleWithAI. rewrite (gbind_ok _ _ e e' tt He).
  destruct Hm as [-> | ->]; cbn [fst snd gret]; repeat split; try assumption; reflexivity.
Qed.

Lemma C9_empty_list_new_chat_witness :
  String.eqb (opt_or_else (API_KEY env0) "") "" = false /\
  snd (generateChatTitleWithAI None INITIAL_AI_WELCOME_TEXT_BASE TitleThrows env0) =
    Ok "New Chat".
Proof.
  split; [reflexivity|].
  exact (proj1 (C9_empty_list_new_chat env0 INITIAL_AI_WELCOME_TEXT_BASE TitleThrows None
                  eq_refl (or_introl eq_refl))).
Defined.

End GeminiClaims.

(* ------------------------------------------------------------------ *)
(** ** Persistence *)

Module StorageFacts.
Import Storage StorageScenario.

(** On a usable store the mount reads each stored preference, with its
    fallback when absent or empty. *)
Lemma app_init_prefs_available ls :
  available ls = true ->
  app_init_prefs ls =
    Ok {| pf_baseTheme := opt_or_else (items ls !! BASE_THEME_KEY) "dark";
          pf_accentTheme := opt_or_else (items ls !! ACCENT_THEME_KEY) "default";
          pf_customCSS := opt_or_else (items ls !! CUSTOM_CSS_KEY) "";
          pf_targetLanguage := opt_or_else (items ls !! TARGET_LANGUAGE_KEY) DEFAULT_TARGET_LANGUAGE;
          pf_thinkingBudget := 0%Z;
          pf_currentChatModel := Gemini.DEFAULT_CHAT_MODEL |}.
Proof.
  intros Ha. unfold app_init_prefs, or_default, loadBaseTheme, loadAccentTheme, loadCustomCSS,
    loadTargetLanguage, getItem. rewrite Ha. reflexivity.
Qed.

Lemma setItem_usable k v ls :
  available ls = true -> full ls = false ->
  try_write (setItem k v ls) = {| items := <[k := v]> (items ls); available := true; full := false |}.
Proof. intros Ha Hf. unfold try_write, setItem. rewrite Ha, Hf. reflexivity. Qed.

Lemma lookup_set (m : gmap string string) k v : <[k := v]> m !! k = Some v.
Proof. rewrite lookup_insert. rewrite decide_True; reflexivity. Qed.

Lemma or_else_self s : or_else s "" = s.
Proof. unfold or_else. destruct (String.eqb s "") eqn:E; [apply String.eqb_eq in E|]; auto. Qed.

Lemma or_else_nonempty s d : s <> "" -> or_else s d = s.
Proof.
  intros H. unfold or_else. destruct (String.eqb s "") eqn:E; [|reflexivity].
  apply String.eqb_eq in E. contradiction.
Qed.

Ltac keys_differ :=
  unfold BASE_THEME_KEY, ACCENT_THEME_KEY, CUSTOM_CSS_KEY, TARGET_LANGUAGE_KEY; discriminate.

End StorageFacts.

Module StorageClaims.
Import Storage StorageScenario StorageFacts.

(** C8 (counterexample): the thinking budget and the model chosen in the
    settings are not stored; on the next mount they are back to 0 and
    gemini-2.5-flash. *)
Lemma C8_budget_and_model_not_persisted :
  let '(p1, ls1) := app_change (SetThinkingBudget 3%Z) default_prefs ls_empty in
  let '(p2, ls2) := app_change (SetCurrentChatModel "gemini-2.5-pro") p1 ls1 in
  pf_thinkingBudget p2 = 3%Z /\ pf_currentChatModel p2 = "gemini-2.5-pro" /\
  app_init_prefs ls2 = Ok default_prefs.
Proof. vm_compute. repeat split. Qed.

(** C8 (amended): on a usable store, a first mount gives the defaults
    (base theme "dark", accent "default", custom CSS "", target language
    "none", budget 0, model gemini-2.5-flash).  Base theme, accent theme,
    custom CSS and target language are each saved on change and read back
    on the next mount, leaving the others as they were; the thinking budget
    and the model are not saved, and the next mount gives 0 and
    gemini-2.5-flash again. *)
Theorem C8_four_preferences_persist :
  (forall ls,
     available ls = true ->
     items ls !! BASE_THEME_KEY = None -> items ls !! ACCENT_THEME_KEY = None ->
     items ls !! CUSTOM_CSS_KEY = None -> items ls !! TARGET_LANGUAGE_KEY = None ->
     app_init_prefs ls = Ok default_prefs) /\
  (forall c p ls q,
     available ls = true -> full ls = false -> valid_change c ->
     app_init_prefs ls = Ok q ->
     app_init_prefs (snd (app_change c p ls)) = Ok (reload_after c q) /\
     pf_thinkingBudget q = 0%Z /\ pf_currentChatModel q = Gemini.DEFAULT_CHAT_MODEL).
Proof.
  split.
  - intros ls Ha H1 H2 H3 H4. rewrite (app_init_prefs_available ls Ha), H1, H2, H3, H4.
    reflexivity.
  - intros c p ls q Ha Hf Hv Hq.
    rewrite (app_init_prefs_available ls Ha) in Hq. injection Hq as <-.
    split; [|split; reflexivity].
    destruct c as [t|t|css|code|b|m]; cbn [app_change snd reload_after];
      [unfold saveBaseTheme|unfold saveAccentTheme|unfold saveCustomCSS
      |unfold saveTargetLanguage|rewrite (app_init_prefs_available ls Ha); reflexivity
      |rewrite (app_init_prefs_available ls Ha); reflexivity];
      rewrite (setItem_usable _ _ ls Ha Hf), app_init_prefs_available by reflexivity;
      cbn [items]; rewrite lookup_set; rewrite !lookup_insert_ne by keys_differ.
    + destruct t; reflexivity.
    + destruct t; reflexivity.
    + cbn [opt_or_else]. rewrite or_else_self. reflexivity.
    + cbn [opt_or_else]. rewrite (or_else_nonempty code _ Hv). reflexivity.
Qed.

(** C10: [loadChats] never throws: with the store disabled, the key
    absent, the stored text empty or not valid JSON, it returns [[]], and
    otherwise the parsed value.  The other loads never throw either: each
    returns the stored value when the store is usable and [null] (for
    [loadCustomCSS], [""]) when it is not. *)
Theorem C10_loads_are_total :
  forall (JSON_parse : string -> option json) ls,
  loadChats JSON_parse ls =
    (if available ls then
       match items ls !! ALL_CHATS_KEY with
       | Some s => if String.eqb s "" then Ok (JArray [])
                   else match JSON_parse s with Some v => Ok v | None => Ok (JArray []) end
       | None => Ok (JArray [])
       end
     else Ok (JArray [])) /\
  ((available ls = false \/ items ls !! ALL_CHATS_KEY = None \/
    items ls !! ALL_CHATS_KEY = Some "" \/
    (exists s, items ls !! ALL_CHATS_KEY = Some s /\ JSON_parse s = None)) ->
   loadChats JSON_parse ls = Ok (JArray [])) /\
  loadActiveChatId ls = Ok (if available ls then items ls !! ACTIVE_CHAT_ID_KEY else None) /\
  loadCustomCSS ls = Ok (if available ls then opt_or_else (items ls !! CUSTOM_CSS_KEY) "" else "") /\
  loadBaseTheme ls = Ok (if available ls then items ls !! BASE_THEME_KEY else None) /\
  loadAccentTheme ls = Ok (if available ls then items ls !! ACCENT_THEME_KEY else None) /\
  loadTargetLanguage ls = Ok (if available ls then items ls !! TARGET_LANGUAGE_KEY else None) /\
  loadTheme ls = Ok (if available ls then items ls !! THEME_KEY else None).
Proof.
  intros JSON_parse ls.
  assert (Hc : loadChats JSON_parse ls =
    (if available ls then
       match items ls !! ALL_CHATS_KEY with
       | Some s => if String.eqb s "" then Ok (JArray [])
                   else match JSON_parse s with Some v => Ok v | None => Ok (JArray []) end
       | None => Ok (JArray [])
       end
     else Ok (JArray []))).
  { unfold loadChats, getItem, js_try, rbind, JSON_parse_r.
    destruct (available ls); [|reflexivity].
    destruct (items ls !! ALL_CHATS_KEY) as [s|]; [|reflexivity].
    destruct (String.eqb s ""); [reflexivity|]. destruct (JSON_parse s); reflexivity. }
  split; [exact Hc|]. split.
  - intros H. rewrite Hc.
    destruct H as [Ha | [Hn | [He | (s & Hs & Hp)]]].
    + rewrite Ha. reflexivity.
    + destruct (available ls); [rewrite Hn|]; reflexivity.
    + destruct (available ls); [rewrite He|]; reflexivity.
    + destruct (available ls); [|reflexivity]. rewrite Hs, Hp.
      destruct (String.eqb s ""); reflexivity.
  - unfold loadActiveChatId, loadCustomCSS, loadBaseTheme, loadAccentTheme, loadTargetLanguage,
      loadTheme, getItem, js_try, rbind.
    destruct (available ls); repeat split.
Qed.

End StorageClaims.

(* ------------------------------------------------------------------ *)
(** ** The summarization stream of the editor *)

Module SummarizerFacts.
Import Summarizer.

Lemma str_app_nonempty_l (t x : string) : t <> "" -> String.eqb (t +:+ x) "" = false.
Proof. destruct t as [|a t]; [contradiction|]. intros _. reflexivity. Qed.

Lemma summarize_fold_first cs sm acc :
  fold_left summarizeChunk cs (sm, acc, true) =
  (if String.eqb (concat_chunks cs) "" then sm
   else set_displayText sm (acc +:+ concat_chunks cs), acc +:+ concat_chunks cs, true).
Proof.
  revert sm acc; induction cs as [|c cs IH]; intros sm acc; cbn [fold_left concat_chunks].
  - rewrite str_app_nil_r. reflexivity.
  - destruct c as [t|]; cbn [summarizeChunk chunk_text].
    + destruct (String.eqb t "") eqn:Ht.
      * apply String.eqb_eq in Ht; subst t. rewrite str_app_nil_l. apply IH.
      * cbn [negb]. rewrite IH.
        assert (Hne : t <> "") by (intro E; subst t; discriminate Ht).
        rewrite (str_app_nonempty_l _ _ Hne), str_app_assoc.
        destruct (String.eqb (concat_chunks cs) "") eqn:Hc; [|reflexivity].
        apply String.eqb_eq in Hc. rewrite Hc, !str_app_nil_r. reflexivity.
    + rewrite str_app_nil_l. apply IH.
Qed.

Lemma summarize_fold_start cs sm :
  fold_left summarizeChunk cs (sm, "", false) =
  if String.eqb (concat_chunks cs) "" then (sm, "", false)
  else (set_displayText sm (concat_chunks cs), concat_chunks cs, true).
Proof.
  revert sm; induction cs as [|c cs IH]; intros sm; cbn [fold_left concat_chunks].
  - reflexivity.
  - destruct c as [t|]; cbn [summarizeChunk chunk_text].
    + destruct (String.eqb t "") eqn:Ht.
      * apply String.eqb_eq in Ht; subst t. rewrite str_app_nil_l. apply IH.
      * cbn [negb]. rewrite summarize_fold_first.
        assert (Hne : t <> "") by (intro E; subst t; discriminate Ht).
        rewrite (str_app_nonempty_l _ _ Hne).
        destruct (String.eqb (concat_chunks cs) "") eqn:Hc; [|reflexivity].
        apply String.eqb_eq in Hc. rewrite Hc, !str_app_nil_r. reflexivity.
    + rewrite str_app_nil_l. apply IH.
Qed.

End SummarizerFacts.

Module SummarizerExtras.
Import Summarizer SummarizerFacts.

(** A summary that runs to the end of its stream shows the concatenated
    chunk texts, clears the running flag, marks the summary complete, and
    reports "AI returned an empty summary." exactly when that text is
    empty. *)
Theorem summarize_done_shows_concatenation aiInstance originalText sm cs :
  aiInstance = true -> trim originalText <> "" -> sm_isSummarizing sm = false ->
  handleSummarize aiInstance originalText sm cs StreamDone =
  {| sm_displayText := concat_chunks cs; sm_isSummarizing := false;
     sm_summaryError := if String.eqb (concat_chunks cs) "" then
                          Some "AI returned an empty summary." else None;
     sm_isSummaryComplete := true |}.
Proof.
  intros Hai Ht Hs. unfold handleSummarize. subst aiInstance.
  apply String.eqb_neq in Ht. rewrite Ht, Hs. cbn [negb orb].
  rewrite summarize_fold_start.
  destruct (String.eqb (concat_chunks cs) "") eqn:Hc.
  - apply String.eqb_eq in Hc. rewrite Hc. reflexivity.
  - reflexivity.
Qed.

Lemma summarize_done_shows_concatenation_witness :
  handleSummarize true "Some long text" (initialSummary "Some long text")
    [Some "A short"; None; Some " summary"] StreamDone =
  {| sm_displayText := "A short summary"; sm_isSummarizing := false;
     sm_summaryError := None; sm_isSummaryComplete := true |}.
Proof.
  apply (summarize_done_shows_concatenation true "Some long text" _ [Some "A short"; None; Some " summary"]).
  - reflexivity.
  - vm_compute. discriminate.
  - reflexivity.
Defined.

(** When the stream throws, the error reads "Summarization failed: "
    followed by the error's message (or "Unknown error"), the summary is
    marked complete, and the text shows the chunks received so far, or the
    text shown before when none had text. *)
Theorem summarize_throw_keeps_partial aiInstance originalText sm cs message :
  aiInstance = true -> trim originalText <> "" -> sm_isSummarizing sm = false ->
  handleSummarize aiInstance originalText sm cs (StreamThrew message) =
  {| sm_displayText := if String.eqb (concat_chunks cs) "" then sm_displayText sm
                       else concat_chunks cs;
     sm_isSummarizing := false;
     sm_summaryError := Some ("Summarization failed: " +:+ opt_or_else message "Unknown error");
     sm_isSummaryComplete := true |}.
Proof.
  intros Hai Ht Hs. unfold handleSummarize. subst aiInstance.
  apply String.eqb_neq in Ht. rewrite Ht, Hs. cbn [negb orb].
  rewrite summarize_fold_start.
  destruct (String.eqb (concat_chunks cs) ""); reflexivity.
Qed.

Lemma summarize_throw_keeps_partial_witness :
  handleSummarize true "Some long text" (initialSummary "Some long text") [] (StreamThrew None) =
  {| sm_displayText := "Some long text"; sm_isSummarizing := false;
     sm_summaryError := Some "Summarization failed: Unknown error";
     sm_isSummaryComplete := true |}.
Proof.
  apply (summarize_throw_keeps_partial true "Some long text" (initialSummary "Some long text") [] None).
  - reflexivity.
  - vm_compute. discriminate.
  - reflexivity.
Defined.

(** A blank original text is never summarized: whatever the stream would
    do, only the error "Original text is empty, nothing to summarize." is
    set.  A call while a summary is already running changes nothing. *)
Theorem summarize_guard aiInstance originalText sm cs fin :
  (trim originalText = "" ->
   handleSummarize aiInstance originalText sm cs fin =
   set_summaryError sm (Some "Original text is empty, nothing to summarize.")) /\
  (trim originalText <> "" -> sm_isSummarizing sm = true ->
   handleSummarize aiInstance originalText sm cs fin =
   if aiInstance then sm else set_summaryError sm (Some "AI service not initialized.")).
Proof.
  unfold handleSummarize. split.
  - intros Ht. rewrite Ht. cbn [String.eqb]. rewrite orb_true_r. reflexivity.
  - intros Ht Hs. apply String.eqb_neq in Ht. rewrite Ht, Hs, orb_true_r.
    destruct aiInstance; reflexivity.
Qed.

(** Export refuses the text shown before a summary completes; after a
    summary streamed to its end it exports exactly the concatenated chunks,
    unless they are blank. *)
Theorem export_after_summary originalText cs :
  handleExportSummary (initialSummary originalText) = None /\
  (trim originalText <> "" ->
   handleExportSummary
     (handleSummarize true originalText (initialSummary originalText) cs StreamDone) =
   if String.eqb (trim (concat_chunks cs)) "" then None else Some (concat_chunks cs)).
Proof.
  split.
  - unfold handleExportSummary, initialSummary; cbn [sm_isSummaryComplete sm_displayText negb].
    rewrite orb_true_r. reflexivity.
  - intros Ht. rewrite summarize_done_shows_concatenation by (reflexivity || exact Ht).
    unfold handleExportSummary; cbn [sm_displayText sm_isSummaryComplete negb].
    rewrite orb_false_r. reflexivity.
Qed.

End SummarizerExtras.

(* ------------------------------------------------------------------ *)
(** ** Conversation management *)

Module AppFacts.
Import ChatTurn Gemini AppShell AppScenario.

Lemma prefix_app (a b : string) : String.prefix a (a +:+ b) = true.
Proof.
  induction a as [|x a IH]; [destruct b; reflexivity|].
  rewrite str_app_cons. cbn [String.prefix].
  destruct (ascii_dec x x); [exact IH | congruence].
Qed.

Lemma welcome_text_startsWith m :
  startsWith (createAppInitialWelcomeText m) INITIAL_AI_WELCOME_TEXT_BASE = true.
Proof. unfold startsWith, createAppInitialWelcomeText. apply prefix_app. Qed.

Lemma trim_nonempty (t : string) : trim t <> "" -> t <> "".
Proof. intros H E. subst t. apply H. reflexivity. Qed.

Lemma filter_id_removed (l : list StoredChat) id :
  List.filter (fun c => String.eqb (chat_id c) id)
    (List.filter (fun c => negb (String.eqb (chat_id c) id)) l) = [].
Proof.
  induction l as [|c l IH]; [reflexivity|]. simpl.
  destruct (String.eqb (chat_id c) id) eqn:E; simpl; [exact IH|].
  rewrite E. exact IH.
Qed.

Lemma filter_id_kept (l : list StoredChat) id :
  List.filter (fun c => negb (String.eqb (chat_id c) id))
    (List.filter (fun c => negb (String.eqb (chat_id c) id)) l) =
  List.filter (fun c => negb (String.eqb (chat_id c) id)) l.
Proof.
  induction l as [|c l IH]; [reflexivity|]. simpl.
  destruct (String.eqb (chat_id c) id) eqn:E; simpl; [exact IH|].
  rewrite E. simpl. rewrite IH. reflexivity.
Qed.

Lemma mapMessages_app l1 l2 :
  mapMessagesToGeminiHistory (l1 ++ l2) =
  mapMessagesToGeminiHistory l1 ++ mapMessagesToGeminiHistory l2.
Proof.
  induction l1 as [|m l1 IH]; [reflexivity|]. cbn [app mapMessagesToGeminiHistory].
  destruct (Sender_eqb (msg_sender m) AI && startsWith (msg_text m) INITIAL_AI_WELCOME_TEXT_BASE)%bool;
    [exact IH|].
  destruct (String.eqb (trim (msg_text m)) ""); [exact IH|].
  destruct (String.eqb (msg_text m) ""); [exact IH|]. rewrite IH. reflexivity.
Qed.

Lemma startNewChat_app u nc nw iso :
  let s := ui_app u in
  let w := createNewWelcomeMessage (st_currentChatModel s) nw in
  st_currentChatId (ui_app (startNewChat u nc nw iso)) = Some ("chat-" +:+ nc) /\
  st_messages (ui_app (startNewChat u nc nw iso)) = [w] /\
  st_allChats (ui_app (startNewChat u nc nw iso)) =
    {| chat_id := "chat-" +:+ nc; chat_title := "New Chat"; chat_createdAt := iso;
       chat_messages := [w]; chat_aiMessagesSinceLastTitleUpdate := Some 0 |}
    :: List.filter (fun c => negb (String.eqb (chat_id c) ("chat-" +:+ nc))) (st_allChats s).
Proof. repeat split. Qed.

Lemma startNewChat_current_stored u nc nw iso :
  current_is_stored (ui_app (startNewChat u nc nw iso)) = true.
Proof.
  destruct (startNewChat_app u nc nw iso) as (H1 & _ & H3).
  unfold current_is_stored. rewrite H1, H3. cbn [existsb chat_id].
  rewrite str_eqb_refl. reflexivity.
Qed.

Lemma existsb_filter_other (l : list StoredChat) id cid :
  String.eqb cid id = false ->
  existsb (fun c => String.eqb (chat_id c) cid)
    (List.filter (fun c => negb (String.eqb (chat_id c) id)) l) =
  existsb (fun c => String.eqb (chat_id c) cid) l.
Proof.
  intros Hne. induction l as [|c l IH]; [reflexivity|]. simpl.
  destruct (String.eqb (chat_id c) id) eqn:E; simpl.
  - apply String.eqb_eq in E. rewrite E, String.eqb_sym, Hne. exact IH.
  - rewrite IH. reflexivity.
Qed.

Lemma find_eqb_id (l : list StoredChat) id c :
  find (fun c => String.eqb (chat_id c) id) l = Some c -> chat_id c = id /\ In c l.
Proof.
  intros H. destruct (find_some _ _ H) as [Hin Hc].
  apply String.eqb_eq in Hc. auto.
Qed.

End AppFacts.

Module AppFacts2.
Import ChatTurn Gemini AppShell AppFacts.

Lemma existsb_filter_removed (l : list StoredChat) id :
  existsb (fun c => String.eqb (chat_id c) id)
    (List.filter (fun c => negb (String.eqb (chat_id c) id)) l) = false.
Proof.
  induction l as [|c l IH]; [reflexivity|]. simpl.
  destruct (String.eqb (chat_id c) id) eqn:E; simpl; [exact IH|].
  rewrite E. exact IH.
Qed.

Lemma existsb_find (l : list StoredChat) id :
  existsb (fun c => String.eqb (chat_id c) id) l = true ->
  exists c, find (fun c => String.eqb (chat_id c) id) l = Some c.
Proof.
  induction l as [|c l IH]; [discriminate|]. simpl.
  destruct (String.eqb (chat_id c) id); [eauto|exact IH].
Qed.

Lemma find_existsb (l : list StoredChat) id c :
  find (fun c => String.eqb (chat_id c) id) l = Some c ->
  existsb (fun c => String.eqb (chat_id c) id) l = true.
Proof.
  intros H. apply existsb_exists. destruct (find_some _ _ H) as [Hin Hc]. eauto.
Qed.

(** The first chat left by the deletion is the first chat of the list
    before it with that id. *)
Lemma find_first_kept (l : list StoredChat) id c rest :
  List.filter (fun c => negb (String.eqb (chat_id c) id)) l = c :: rest ->
  find (fun x => String.eqb (chat_id x) (chat_id c)) l = Some c.
Proof.
  induction l as [|x l IH]; [discriminate|]. simpl.
  destruct (String.eqb (chat_id x) id) eqn:E; simpl.
  - intros H. specialize (IH H).
    assert (Hc : chat_id c <> id).
    { intro Hc. pose proof (existsb_filter_removed l id) as R. rewrite H in R.
      simpl in R. rewrite Hc, str_eqb_refl in R. discriminate. }
    apply String.eqb_eq in E. rewrite E.
    destruct (String.eqb id (chat_id c)) eqn:F; [|exact IH].
    apply String.eqb_eq in F. congruence.
  - intros H. injection H as -> _. rewrite str_eqb_refl. reflexivity.
Qed.

Lemma switchChat_found s id c :
  find (fun x => String.eqb (chat_id x) id) (st_allChats s) = Some c ->
  st_currentChatId (switchChat s id) = Some id /\ st_messages (switchChat s id) = chat_messages c /\
  st_allChats (switchChat s id) = st_allChats s /\ st_currentView (switchChat s id) = ViewChat /\
  st_error (switchChat s id) = None /\ st_isLoading (switchChat s id) = false.
Proof. intros H. unfold switchChat. rewrite H. repeat split. Qed.

Lemma switchChatUI_app u id :
  ui_app (switchChatUI u id) = switchChat (ui_app u) id.
Proof.
  unfold switchChatUI, switchChat.
  destruct (find _ (st_allChats (ui_app u))); reflexivity.
Qed.

End AppFacts2.

Module AppExtras.
Import ChatTurn Gemini AppShell AppFacts AppFacts2 AppScenario.

(** [startNewChat] puts the new conversation first and makes it current:
    the stored copy holds the messages shown, its id occurs exactly once,
    and every other conversation is kept in its order. *)
Theorem startNewChat_new_chat_first u nc nw iso :
  let u' := startNewChat u nc nw iso in
  let id := "chat-" +:+ nc in
  st_currentChatId (ui_app u') = Some id /\
  option_map chat_messages (find (fun c => String.eqb (chat_id c) id) (st_allChats (ui_app u'))) =
    Some (st_messages (ui_app u')) /\
  length (List.filter (fun c => String.eqb (chat_id c) id) (st_allChats (ui_app u'))) = 1 /\
  List.filter (fun c => negb (String.eqb (chat_id c) id)) (st_allChats (ui_app u')) =
    List.filter (fun c => negb (String.eqb (chat_id c) id)) (st_allChats (ui_app u)).
Proof.
  cbv zeta. destruct (startNewChat_app u nc nw iso) as (H1 & H2 & H3).
  rewrite H1, H2, H3. cbn [find List.filter chat_id chat_messages option_map].
  rewrite str_eqb_refl. cbn [negb]. split; [reflexivity|]. split; [reflexivity|].
  rewrite filter_id_removed, filter_id_kept. split; reflexivity.
Qed.

(** Right after [startNewChat] the conversation counts as effectively new,
    no error shows, and the welcome message is left out of the history a
    message would be sent with. *)
Theorem startNewChat_effectively_new u nc nw iso :
  let s' := ui_app (startNewChat u nc nw iso) in
  isEffectivelyNewChat s' = true /\ mapMessagesToGeminiHistory (st_messages s') = [] /\
  st_error s' = None /\ st_isLoading s' = false /\ st_currentView s' = ViewChat.
Proof.
  cbv zeta. destruct (startNewChat_app u nc nw iso) as (_ & H2 & _).
  unfold isEffectivelyNewChat. rewrite H2.
  cbn [length Nat.leb createNewWelcomeMessage msg_sender msg_text Sender_eqb
       mapMessagesToGeminiHistory andb].
  rewrite welcome_text_startsWith. repeat split.
Qed.

(** The request a sent message makes carries the message itself, the
    model, and as history the earlier messages of the turn mapped by
    [mapMessagesToGeminiHistory] (none when the chat is effectively new):
    the new message never appears in its own history. *)
Theorem send_request_history s inputText now1 now2 :
  trim inputText <> "" -> st_isLoading s = false ->
  exists cfg, handleSendMessage_request s inputText now1 now2 =
    Some (Proxy.ProxyChat
            (mapMessagesToGeminiHistory (if isEffectivelyNewChat s then [] else st_messages s))
            [inputText] (st_currentChatModel s) cfg).
Proof.
  intros Ht Hl. unfold handleSendMessage_request, handleSendMessage_start.
  assert (Ht' := Ht). apply String.eqb_neq in Ht'. rewrite Ht', Hl. cbn [orb].
  cbn iota zeta beta. cbn [tr_updatedMessagesWithUser].
  rewrite mapMessages_app. cbn [mapMessagesToGeminiHistory msg_sender msg_text Sender_eqb andb].
  rewrite Ht'. apply trim_nonempty, String.eqb_neq in Ht. rewrite Ht.
  rewrite removelast_last. unfold Proxy.sendMessageToChatStream. eexists. reflexivity.
Qed.

Lemma send_request_history_witness :
  exists cfg, handleSendMessage_request TurnScenario.s0 "Hi there" "1" "2" =
    Some (Proxy.ProxyChat [] ["Hi there"] "gemini-2.5-flash" cfg).
Proof.
  apply (send_request_history TurnScenario.s0 "Hi there" "1" "2").
  - vm_compute. discriminate.
  - reflexivity.
Defined.

(** Every history item has exactly one part, a text that is not blank,
    and the role "user" or "model"; the history is never longer than the
    message list. *)
Theorem mapMessages_items l :
  Forall (fun h => exists t, hi_parts h = [t] /\ trim t <> "" /\
                             (hi_role h = "user" \/ hi_role h = "model"))
         (mapMessagesToGeminiHistory l) /\
  length (mapMessagesToGeminiHistory l) <= length l.
Proof.
  induction l as [|m l [IHf IHl]]; [split; [constructor | reflexivity]|].
  cbn [mapMessagesToGeminiHistory length].
  destruct (Sender_eqb (msg_sender m) AI && startsWith (msg_text m) INITIAL_AI_WELCOME_TEXT_BASE)%bool;
    [split; [exact IHf | lia]|].
  destruct (String.eqb (trim (msg_text m)) "") eqn:Et; [split; [exact IHf | lia]|].
  destruct (String.eqb (msg_text m) ""); [split; [exact IHf | lia]|].
  split; [|cbn [length]; lia].
  constructor; [|exact IHf]. exists (msg_text m). split; [reflexivity|].
  split; [now apply String.eqb_neq|].
  destruct (Sender_eqb (msg_sender m) User); [left|right]; reflexivity.
Qed.

End AppExtras.

Module AppExtras2.
Import ChatTurn Gemini AppShell AppFacts AppFacts2 AppScenario.

(** Once the current conversation is one of the stored ones, it stays so
    through [switchChat], [startNewChat] and [deleteChat]. *)
Theorem current_chat_stays_stored u id nc nw iso :
  current_is_stored (ui_app u) = true ->
  current_is_stored (ui_app (switchChatUI u id)) = true /\
  current_is_stored (ui_app (startNewChat u nc nw iso)) = true /\
  current_is_stored (ui_app (deleteChat u id nc nw iso)) = true.
Proof.
  intros Hinv. split; [|split; [apply startNewChat_current_stored|]].
  - rewrite switchChatUI_app.
    destruct (find (fun x => String.eqb (chat_id x) id) (st_allChats (ui_app u))) as [c|] eqn:F.
    + destruct (switchChat_found _ _ _ F) as (H1 & _ & H3 & _).
      unfold current_is_stored. rewrite H1, H3. exact (find_existsb _ _ _ F).
    + unfold switchChat. rewrite F. exact Hinv.
  - unfold deleteChat.
    destruct (st_currentChatId (ui_app u)) as [cid|] eqn:Hc;
      [|unfold current_is_stored in Hinv; rewrite Hc in Hinv; discriminate].
    destruct (String.eqb cid id) eqn:E.
    + destruct (List.filter (fun c => negb (String.eqb (chat_id c) id)) (st_allChats (ui_app u)))
        as [|c rest] eqn:Hf.
      * apply startNewChat_current_stored.
      * pose proof (find_first_kept _ _ _ _ Hf) as F.
        rewrite switchChatUI_app. destruct (switchChat_found _ _ _ F) as (H1 & _).
        unfold current_is_stored, ui_with_app. cbn [ui_app st_currentChatId st_allChats setAllChats].
        unfold setAllChats in *. cbn [st_currentChatId] in *. rewrite H1.
        cbn [existsb]. rewrite str_eqb_refl. reflexivity.
    + unfold current_is_stored, ui_with_app, setAllChats. cbn [ui_app st_currentChatId st_allChats].
      rewrite Hc. rewrite existsb_filter_other by exact E.
      unfold current_is_stored in Hinv. rewrite Hc in Hinv. exact Hinv.
Qed.

Lemma current_chat_stays_stored_witness :
  current_is_stored (ui_app ui0) = true /\
  current_is_stored (ui_app (switchChatUI ui0 "chat-A")) = true /\
  current_is_stored (ui_app (startNewChat ui0 "3" "3" "t")) = true /\
  current_is_stored (ui_app (deleteChat ui0 "chat-A" "3" "3" "t")) = true.
Proof.
  split; [reflexivity|]. apply (current_chat_stays_stored ui0 "chat-A" "3" "3" "t").
  reflexivity.
Defined.

End AppExtras2.

Module AppExtras3.
Import ChatTurn Gemini AppShell AppFacts AppFacts2 AppScenario.



(** Deleting the current conversation shows the first conversation left
    (its messages, the chat view, no error), or starts a new one when none
    is left; deleting another conversation leaves the current one, the
    messages shown and the view as they were. *)
Theorem deleteChat_shown_conversation u id nc nw iso :
  let u' := deleteChat u id nc nw iso in
  (st_currentChatId (ui_app u) = Some id ->
   match List.filter (fun c => negb (String.eqb (chat_id c) id)) (st_allChats (ui_app u)) with
   | c :: _ => st_currentChatId (ui_app u') = Some (chat_id c) /\
               st_messages (ui_app u') = chat_messages c /\
               st_currentView (ui_app u') = ViewChat /\ st_error (ui_app u') = None
   | [] => u' = startNewChat (ui_with_app u (setAllChats (ui_app u) [])) nc nw iso
   end) /\
  (st_currentChatId (ui_app u) <> Some id ->
   st_currentChatId (ui_app u') = st_currentChatId (ui_app u) /\
   st_messages (ui_app u') = st_messages (ui_app u) /\
   st_currentView (ui_app u') = st_currentView (ui_app u)).
Proof.
  cbv zeta. unfold deleteChat. split.
  - intros Hc. rewrite Hc, str_eqb_refl.
    destruct (List.filter (fun c => negb (String.eqb (chat_id c) id)) (st_allChats (ui_app u)))
      as [|c rest] eqn:Hf; [reflexivity|].
    pose proof (find_first_kept _ _ _ _ Hf) as F.
    rewrite switchChatUI_app. destruct (switchChat_found _ _ _ F) as (H1 & H2 & _ & H4 & H5 & _).
    cbn [ui_app ui_with_app]. unfold setAllChats. cbn [st_currentChatId st_messages st_currentView st_error].
    auto.
  - intros Hc. destruct (st_currentChatId (ui_app u)) as [cid|] eqn:E.
    + destruct (String.eqb cid id) eqn:F.
      * apply String.eqb_eq in F. subst cid. contradiction.
      * cbn [ui_app ui_with_app]. unfold setAllChats.
        cbn [st_currentChatId st_messages st_currentView]. auto.
    + cbn [ui_app ui_with_app]. unfold setAllChats.
      cbn [st_currentChatId st_messages st_currentView]. auto.
Qed.

End AppExtras3.

Module AppExtras4.
Import ChatTurn Gemini AppShell AppFacts AppFacts2 AppScenario.

(** On mount, a stored active id that names a loaded conversation makes
    that conversation current, with its messages shown and the loaded list
    stored as it is. *)
Theorem app_mount_restores_active u loadedChats a nc nw iso :
  a <> "" -> existsb (fun c => String.eqb (chat_id c) a) loadedChats = true ->
  let u' := app_mount u loadedChats (Some a) nc nw iso in
  st_currentChatId (ui_app u') = Some a /\
  option_map chat_messages (find (fun c => String.eqb (chat_id c) a) loadedChats) =
    Some (st_messages (ui_app u')) /\
  st_allChats (ui_app u') = loadedChats.
Proof.
  intros Ha Hex. cbv zeta. unfold app_mount.
  apply String.eqb_neq in Ha. rewrite Ha, Hex. cbn [negb andb].
  destruct (existsb_find _ _ Hex) as [c F]. rewrite F.
  destruct (find_eqb_id _ _ _ F) as [Hid _].
  cbn [ui_app ui_with_app option_map]. unfold setCurrentChatId, setMessages, setAllChats.
  cbn [st_currentChatId st_messages st_allChats]. rewrite Hid. auto.
Qed.

Lemma app_mount_restores_active_witness :
  "chat-B" <> "" /\
  st_currentChatId (ui_app (app_mount ui0 [TurnScenario.chatA; TurnScenario.chatB]
                              (Some "chat-B") "3" "3" "t")) = Some "chat-B".
Proof.
  assert (H : "chat-B" <> "") by discriminate. split; [exact H|].
  apply (app_mount_restores_active ui0 [TurnScenario.chatA; TurnScenario.chatB]
           "chat-B" "3" "3" "t" H). reflexivity.
Defined.

(** Whatever the stored chats and active id, after mount the current
    conversation is a stored one, and no loaded conversation is dropped
    (except one sharing the id of a conversation the mount starts). *)
Theorem app_mount_current_stored u loadedChats activeId nc nw iso :
  let u' := app_mount u loadedChats activeId nc nw iso in
  current_is_stored (ui_app u') = true /\
  (forall c, In c loadedChats -> chat_id c <> "chat-" +:+ nc -> In c (st_allChats (ui_app u'))).
Proof.
  cbv zeta.
  assert (Hnew : forall u1, st_allChats (ui_app u1) = loadedChats ->
            current_is_stored (ui_app (startNewChat u1 nc nw iso)) = true /\
            (forall c, In c loadedChats -> chat_id c <> "chat-" +:+ nc ->
                       In c (st_allChats (ui_app (startNewChat u1 nc nw iso))))).
  { intros u1 Hl. split; [apply startNewChat_current_stored|].
    intros c Hin Hc. destruct (startNewChat_app u1 nc nw iso) as (_ & _ & H3).
    rewrite H3, Hl. right. apply filter_In. split; [exact Hin|].
    apply String.eqb_neq in Hc. rewrite Hc. reflexivity. }
  unfold app_mount.
  destruct activeId as [a|]; [|apply Hnew; reflexivity].
  destruct (negb (String.eqb a "") && existsb (fun chat => String.eqb (chat_id chat) a) loadedChats)%bool
    eqn:Hhit; [|apply Hnew; reflexivity].
  apply andb_prop in Hhit as [_ Hex].
  destruct (existsb_find _ _ Hex) as [c F]. rewrite F.
  cbn [ui_app ui_with_app]. unfold current_is_stored, setCurrentChatId, setMessages, setAllChats.
  cbn [st_currentChatId st_allChats]. split; [|auto].
  destruct (find_eqb_id _ _ _ F) as [Hid Hin]. apply existsb_exists. exists c.
  split; [exact Hin|]. apply str_eqb_refl.
Qed.

(** The title shown above the conversation is never empty. *)
Theorem currentChatTitle_nonempty s isTitleLoading :
  currentChatTitle s isTitleLoading <> "".
Proof.
  unfold currentChatTitle.
  destruct (isTitleLoading && _)%bool; [discriminate|].
  destruct (match st_currentChatId s with
            | Some cid => find (fun c => String.eqb (chat_id c) cid) (st_allChats s)
            | None => None end) as [c|]; [|discriminate].
  destruct (_ && _)%bool; [discriminate|].
  unfold or_else. destruct (String.eqb (chat_title c) "") eqn:E; [discriminate|].
  apply String.eqb_neq. exact E.
Qed.

(** A current conversation with a real title (neither empty nor
    "New Chat") is shown under that title, also while a title is being
    generated. *)
Theorem currentChatTitle_real_title s isTitleLoading cid c :
  st_currentChatId s = Some cid ->
  find (fun c => String.eqb (chat_id c) cid) (st_allChats s) = Some c ->
  chat_title c <> "" -> chat_title c <> "New Chat" ->
  currentChatTitle s isTitleLoading = chat_title c.
Proof.
  intros Hc Hf H1 H2. unfold currentChatTitle. rewrite Hc, Hf.
  apply String.eqb_neq in H1. apply String.eqb_neq in H2. rewrite H1, H2.
  cbn [orb andb]. rewrite andb_false_r. unfold or_else. rewrite H1. reflexivity.
Qed.

Lemma currentChatTitle_real_title_witness :
  currentChatTitle TurnScenario.s0 true = "Generating title..." /\
  currentChatTitle (setCurrentChatId TurnScenario.s0 (Some "chat-B")) true = "Trip ideas".
Proof.
  split; [reflexivity|].
  apply (currentChatTitle_real_title _ true "chat-B" TurnScenario.chatB); try reflexivity; discriminate.
Defined.

(** The summarization editor opens, with the text to summarize, exactly
    when that text is not blank; a blank text only sets the error
    "Cannot summarize empty text.".  Closing the editor hides it. *)
Theorem summarization_editor_open_close u textToSummarize :
  editorShown (handleOpenSummarizationEditor u textToSummarize) =
    (if String.eqb (trim textToSummarize) "" then editorShown u else Some textToSummarize) /\
  (String.eqb (trim textToSummarize) "" = true ->
   st_error (ui_app (handleOpenSummarizationEditor u textToSummarize)) =
     Some "Cannot summarize empty text.") /\
  editorShown (handleCloseSummarizationEditor u) = None.
Proof.
  unfold handleOpenSummarizationEditor, handleCloseSummarizationEditor, editorShown.
  split; [|split; [intros ->; reflexivity | reflexivity]].
  destruct (String.eqb (trim textToSummarize) "") eqn:E; [reflexivity|].
  cbn [ui_app ui_textToSummarizeForEditor]. unfold setCurrentView. cbn [st_currentView].
  apply String.eqb_neq in E. apply trim_nonempty, String.eqb_neq in E. rewrite E. reflexivity.
Qed.

End AppExtras4.

(* ------------------------------------------------------------------ *)
(** ** Persistence: round trips and independence of the keys *)

Module StorageFacts2.
Import Storage StorageScenario StorageFacts.

Ltac all_keys_differ :=
  unfold ALL_CHATS_KEY, ACTIVE_CHAT_ID_KEY, BASE_THEME_KEY, ACCENT_THEME_KEY, CUSTOM_CSS_KEY,
    TARGET_LANGUAGE_KEY, THEME_KEY; discriminate.

Lemma write_frame K v ls k :
  k <> K ->
  items (try_write (setItem K v ls)) !! k = items ls !! k /\
  available (try_write (setItem K v ls)) = available ls.
Proof.
  intros Hk. unfold try_write, setItem.
  destruct (available ls) eqn:Ha; [|auto]. destruct (full ls); [auto|].
  cbn [fst items available]. split; [|reflexivity].
  apply lookup_insert_ne. congruence.
Qed.

Lemma remove_frame K ls k :
  k <> K ->
  items (try_write (removeItem K ls)) !! k = items ls !! k /\
  available (try_write (removeItem K ls)) = available ls.
Proof.
  intros Hk. unfold try_write, removeItem.
  destruct (available ls) eqn:Ha; [|auto].
  cbn [fst items available]. split; [|reflexivity].
  apply lookup_delete_ne. congruence.
Qed.

Lemma getItem_frame k ls ls' :
  available ls' = available ls -> items ls' !! k = items ls !! k -> getItem k ls' = getItem k ls.
Proof. intros Ha Hk. unfold getItem. rewrite Ha, Hk. reflexivity. Qed.

(** The keys a write leaves alone read as before. *)
Lemma saveActiveChatId_frame id ls k :
  k <> ACTIVE_CHAT_ID_KEY -> getItem k (saveActiveChatId id ls) = getItem k ls.
Proof.
  intros Hk. unfold saveActiveChatId.
  destruct (remove_frame ACTIVE_CHAT_ID_KEY ls k Hk) as [R1 R2].
  destruct id as [i|]; [destruct (String.eqb i "")|];
    [ | destruct (write_frame ACTIVE_CHAT_ID_KEY i ls k Hk) as [R1' R2'] | ];
    apply getItem_frame; assumption.
Qed.

Lemma saveChats_frame stringify v ls k :
  k <> ALL_CHATS_KEY -> getItem k (saveChats stringify v ls) = getItem k ls.
Proof.
  intros Hk. destruct (write_frame ALL_CHATS_KEY (stringify v) ls k Hk) as [H1 H2].
  apply getItem_frame; assumption.
Qed.

Lemma app_change_frame c p ls k :
  k <> BASE_THEME_KEY -> k <> ACCENT_THEME_KEY -> k <> CUSTOM_CSS_KEY ->
  k <> TARGET_LANGUAGE_KEY -> getItem k (snd (app_change c p ls)) = getItem k ls.
Proof.
  intros H1 H2 H3 H4.
  destruct c; cbn [app_change snd]; try reflexivity;
    [ destruct (write_frame BASE_THEME_KEY (BaseTheme_string t) ls k H1) as [E1 E2]
    | destruct (write_frame ACCENT_THEME_KEY (AccentTheme_string t) ls k H2) as [E1 E2]
    | destruct (write_frame CUSTOM_CSS_KEY css ls k H3) as [E1 E2]
    | destruct (write_frame TARGET_LANGUAGE_KEY code ls k H4) as [E1 E2] ];
    apply getItem_frame; assumption.
Qed.

Lemma app_init_prefs_frame ls ls' :
  getItem BASE_THEME_KEY ls' = getItem BASE_THEME_KEY ls ->
  getItem ACCENT_THEME_KEY ls' = getItem ACCENT_THEME_KEY ls ->
  getItem CUSTOM_CSS_KEY ls' = getItem CUSTOM_CSS_KEY ls ->
  getItem TARGET_LANGUAGE_KEY ls' = getItem TARGET_LANGUAGE_KEY ls ->
  app_init_prefs ls' = app_init_prefs ls.
Proof.
  intros H1 H2 H3 H4. unfold app_init_prefs, loadBaseTheme, loadAccentTheme, loadCustomCSS,
    loadTargetLanguage. rewrite H1, H2, H3, H4. reflexivity.
Qed.

End StorageFacts2.

Module StorageExtras.
Import Storage StorageScenario StorageFacts StorageFacts2.

(** On a usable store, a non-empty active chat id reads back as saved,
    and saving [null] or [""] clears it so that it reads back as [null];
    clearing works even when the store refuses new writes. *)
Theorem activeChatId_round_trip ls :
  available ls = true ->
  (forall id, id <> "" -> full ls = false ->
   loadActiveChatId (saveActiveChatId (Some id) ls) = Ok (Some id)) /\
  loadActiveChatId (saveActiveChatId None ls) = Ok None /\
  loadActiveChatId (saveActiveChatId (Some "") ls) = Ok None.
Proof.
  intros Ha. unfold loadActiveChatId, saveActiveChatId, getItem, js_try.
  split; [|split].
  - intros id Hid Hf. apply String.eqb_neq in Hid. rewrite Hid, (setItem_usable _ _ _ Ha Hf).
    cbn [available items]. rewrite lookup_set. reflexivity.
  - unfold try_write, removeItem. rewrite Ha. cbn [fst available items].
    rewrite lookup_delete. reflexivity.
  - cbn [String.eqb]. unfold try_write, removeItem. rewrite Ha. cbn [fst available items].
    rewrite lookup_delete. reflexivity.
Qed.

Lemma activeChatId_round_trip_witness :
  available ls_empty = true /\
  loadActiveChatId (saveActiveChatId (Some "chat-A") ls_empty) = Ok (Some "chat-A").
Proof.
  assert (Ha : available ls_empty = true) by reflexivity. split; [exact Ha|].
  apply (proj1 (activeChatId_round_trip ls_empty Ha)); [discriminate | reflexivity].
Defined.

(** With a [JSON.stringify]/[JSON.parse] pair that reads back what it
    writes (and never writes the empty string), the chats saved on a
    usable store are the chats loaded. *)
Theorem chats_round_trip (JSON_stringify : json -> string) (JSON_parse : string -> option json) v ls :
  available ls = true -> full ls = false ->
  JSON_stringify v <> "" -> JSON_parse (JSON_stringify v) = Some v ->
  loadChats JSON_parse (saveChats JSON_stringify v ls) = Ok v.
Proof.
  intros Ha Hf Hne Hp. unfold saveChats. rewrite (setItem_usable _ _ _ Ha Hf).
  unfold loadChats, getItem, js_try, rbind, JSON_parse_r. cbn [available items].
  rewrite lookup_set. apply String.eqb_neq in Hne. rewrite Hne, Hp. reflexivity.
Qed.

Lemma chats_round_trip_witness :
  loadChats empty_list_parse (saveChats empty_list_stringify (JArray []) ls_empty) = Ok (JArray []).
Proof.
  apply (chats_round_trip empty_list_stringify empty_list_parse (JArray []) ls_empty);
    [reflexivity | reflexivity | discriminate | reflexivity].
Defined.

(** A store that is disabled or full takes no write: every save leaves it
    as it was (the error is swallowed), so the next load reads the old
    value. *)
Theorem failed_writes_change_nothing ls (JSON_stringify : json -> string) :
  (available ls = false \/ full ls = true) ->
  forall chats css bt accent lang theme id, id <> "" ->
  saveChats JSON_stringify chats ls = ls /\ saveCustomCSS css ls = ls /\
  saveBaseTheme bt ls = ls /\ saveAccentTheme accent ls = ls /\
  saveTargetLanguage lang ls = ls /\ saveTheme theme ls = ls /\
  saveActiveChatId (Some id) ls = ls.
Proof.
  intros H chats css bt accent lang theme id Hid.
  assert (W : forall k v, try_write (setItem k v ls) = ls).
  { intros k v. unfold try_write, setItem.
    destruct H as [Ha | Hf]; [rewrite Ha; reflexivity|].
    destruct (available ls); [rewrite Hf|]; reflexivity. }
  unfold saveChats, saveCustomCSS, saveBaseTheme, saveAccentTheme, saveTargetLanguage,
    saveTheme, saveActiveChatId.
  apply String.eqb_neq in Hid. rewrite Hid, !W. repeat split.
Qed.

Lemma failed_writes_change_nothing_witness :
  saveActiveChatId (Some "chat-A") ls_disabled = ls_disabled.
Proof.
  refine (proj2 (proj2 (proj2 (proj2 (proj2 (proj2
    (failed_writes_change_nothing ls_disabled (fun _ => "[]") (or_introl eq_refl)
       (JArray []) "" Light AccentDefault "none" "dark" "chat-A" _))))))).
  discriminate.
Defined.

(** Changing a theme, the custom CSS, the target language or the thinking
    budget never changes the stored chats or the active chat id, and
    saving the chats or the active chat id never changes the preferences
    read on the next mount. *)
Theorem saves_are_independent (JSON_stringify : json -> string) (JSON_parse : string -> option json)
    c p ls chats id :
  (forall m, c <> SetCurrentChatModel m) ->
  loadChats JSON_parse (snd (app_change c p ls)) = loadChats JSON_parse ls /\
  loadActiveChatId (snd (app_change c p ls)) = loadActiveChatId ls /\
  app_init_prefs (saveChats JSON_stringify chats ls) = app_init_prefs ls /\
  app_init_prefs (saveActiveChatId id ls) = app_init_prefs ls.
Proof.
  intros _. split; [|split; [|split]].
  - unfold loadChats. rewrite app_change_frame by all_keys_differ. reflexivity.
  - unfold loadActiveChatId. rewrite app_change_frame by all_keys_differ. reflexivity.
  - apply app_init_prefs_frame; apply saveChats_frame; all_keys_differ.
  - apply app_init_prefs_frame; apply saveActiveChatId_frame; all_keys_differ.
Qed.

Lemma saves_are_independent_witness :
  (forall m, SetCustomCSS "body { margin: 0; }" <> SetCurrentChatModel m) /\
  loadChats empty_list_parse
    (snd (app_change (SetCustomCSS "body { margin: 0; }") default_prefs
            (saveChats empty_list_stringify (JArray []) ls_empty))) =
  loadChats empty_list_parse (saveChats empty_list_stringify (JArray []) ls_empty).
Proof.
  assert (H : forall m, SetCustomCSS "body { margin: 0; }" <> SetCurrentChatModel m)
    by (intros m; discriminate).
  split; [exact H|].
  exact (proj1 (saves_are_independent empty_list_stringify empty_list_parse _ default_prefs
                  (saveChats empty_list_stringify (JArray []) ls_empty) (JArray []) (Some "chat-A") H)).
Defined.

End StorageExtras.

(* ------------------------------------------------------------------ *)
(** ** Titles: [split(' ')] and [join(' ')] *)

Module SplitFacts.
Import SplitCount.

Lemma split_nonempty c s : split_char c s <> [].
Proof.
  induction s as [|a r IH]; [discriminate|]. cbn [split_char].
  destruct (split_char c r) as [|w ws]; [contradiction|].
  destruct (Ascii.eqb a c); discriminate.
Qed.

Lemma split_length c s : length (split_char c s) = S (occ c s).
Proof.
  induction s as [|a r IH]; [reflexivity|]. cbn [split_char list_ascii_of_string count_occ].
  pose proof (split_nonempty c r) as Hne.
  destruct (split_char c r) as [|w ws]; [contradiction|].
  destruct (Ascii.eqb a c) eqn:E; destruct (ascii_dec a c) as [Ea|Ea].
  - cbn [length] in *. rewrite IH. reflexivity.
  - apply Ascii.eqb_eq in E. contradiction.
  - subst a. rewrite Ascii.eqb_refl in E. discriminate.
  - exact IH.
Qed.

Lemma list_ascii_app s t :
  list_ascii_of_string (s +:+ t) = list_ascii_of_string s ++ list_ascii_of_string t.
Proof. induction s as [|a s IH]; [reflexivity|]. rewrite str_app_cons. cbn. now rewrite IH. Qed.

Lemma occ_app c s t : occ c (s +:+ t) = occ c s + occ c t.
Proof. rewrite list_ascii_app. apply count_occ_app. Qed.

Lemma split_pieces_free c s : Forall (fun w => occ c w = 0) (split_char c s).
Proof.
  induction s as [|a r IH]; [constructor; [reflexivity | constructor]|]. cbn [split_char].
  pose proof (split_nonempty c r) as Hne.
  destruct (split_char c r) as [|w ws]; [contradiction|].
  destruct (Ascii.eqb a c) eqn:E.
  - constructor; [reflexivity | exact IH].
  - inversion IH as [|? ? Hw Hws]; subst. constructor; [|exact Hws].
    cbn [list_ascii_of_string count_occ]. destruct (ascii_dec a c) as [Ea|_]; [|exact Hw].
    subst a. rewrite Ascii.eqb_refl in E. discriminate.
Qed.

Lemma join_cons_cons sep w w' ws : join sep (w :: w' :: ws) = w +:+ sep +:+ join sep (w' :: ws).
Proof. reflexivity. Qed.

Lemma join_cons_char sep a w ws : join sep (String a w :: ws) = String a (join sep (w :: ws)).
Proof. destruct ws; reflexivity. Qed.

Lemma join_split c s : join (String c "") (split_char c s) = s.
Proof.
  induction s as [|a r IH]; [reflexivity|]. cbn [split_char].
  pose proof (split_nonempty c r) as Hne.
  destruct (split_char c r) as [|w ws]; [contradiction|].
  destruct (Ascii.eqb a c) eqn:E.
  - apply Ascii.eqb_eq in E. subst a. rewrite join_cons_cons, str_app_nil_l, str_app_cons, IH.
    reflexivity.
  - rewrite join_cons_char, IH. reflexivity.
Qed.

Lemma join_occ c ws :
  ws <> [] -> Forall (fun w => occ c w = 0) ws -> occ c (join (String c "") ws) = length ws - 1.
Proof.
  induction ws as [|w ws IH]; [contradiction|]. intros _ Hf.
  inversion Hf as [|? ? Hw Hws]; subst.
  destruct ws as [|w' ws']; [exact Hw|].
  rewrite join_cons_cons, !occ_app, Hw, IH by (discriminate || exact Hws).
  cbn [list_ascii_of_string count_occ length]. destruct (ascii_dec c c); [|contradiction]. lia.
Qed.

Lemma join_suffix_pieces c ws t :
  ws <> [] -> Forall (fun w => occ c w = 0) ws -> occ c t = 0 ->
  length (split_char c (join (String c "") ws +:+ t)) = length ws.
Proof.
  intros Hne Hf Ht. rewrite split_length, occ_app, join_occ, Ht by assumption.
  destruct ws; [contradiction|]. cbn [length]. lia.
Qed.

Lemma Forall_firstn {A} (P : A -> Prop) n l : Forall P l -> Forall P (firstn n l).
Proof.
  revert l; induction n as [|n IH]; intros l H; [constructor|].
  destruct l as [|x l]; [constructor|]. inversion H; subst. cbn [firstn]. constructor; auto.
Qed.

End SplitFacts.

Module TitleFacts.
Import ChatTurn Gemini GeminiFacts SplitCount SplitFacts.

Lemma space_string : " " = String space "".
Proof. reflexivity. Qed.

Lemma occ_dots : occ space "..." = 0.
Proof. reflexivity. Qed.

Lemma occ_nil : occ space "" = 0.
Proof. reflexivity. Qed.

Lemma fallback_pieces msgs : length (split_char space (generateFallbackTitle msgs)) <= 4.
Proof.
  unfold generateFallbackTitle.
  destruct (find _ msgs) as [m|]; [|cbn; lia].
  destruct (String.eqb (msg_text m) ""); [cbn; lia|].
  set (words := split_char space (trim (msg_text m))).
  assert (Hne : words <> []) by apply split_nonempty.
  assert (Hl : 1 <= length words) by (destruct words; [contradiction | cbn; lia]).
  assert (Hf : Forall (fun w => occ space w = 0) (firstn (Nat.min (length words) 4) words))
    by (apply Forall_firstn, split_pieces_free).
  assert (Hfne : firstn (Nat.min (length words) 4) words <> []).
  { destruct words as [|w ws]; [contradiction|]. cbn [length].
    replace (Nat.min (S (length ws)) 4) with (S (Nat.min (length ws) 3)) by lia. discriminate. }
  rewrite space_string, join_suffix_pieces; [| exact Hfne | exact Hf |].
  - rewrite length_firstn. lia.
  - destruct (Nat.ltb 4 (length words)); reflexivity.
Qed.

Lemma cleanTitle_pieces t : length (split_char space (cleanTitleOf t)) <= 7.
Proof.
  unfold cleanTitleOf.
  set (c1 := if startsWith _ "title:" then _ else _).
  destruct (Nat.ltb 7 (length (split_char space c1))) eqn:E.
  - apply Nat.ltb_lt in E.
    assert (Hfne : firstn 7 (split_char space c1) <> []).
    { destruct (split_char space c1); [cbn in E; lia | discriminate]. }
    rewrite space_string, join_suffix_pieces;
      [| exact Hfne | apply Forall_firstn, split_pieces_free | reflexivity].
    rewrite length_firstn. lia.
  - apply Nat.ltb_ge in E. exact E.
Qed.

Lemma titleFromResponse_pieces msgs r :
  length (split_char space (titleFromResponse msgs r)) <= 7.
Proof.
  pose proof (fallback_pieces msgs).
  destruct r as [|br txt]; cbn [titleFromResponse]; [lia|].
  destruct (negb _); [lia|]. destruct txt as [t|]; [|lia].
  destruct (negb (String.eqb (trim t) "")); [|lia].
  destruct (String.eqb (cleanTitleOf t) ""); [lia|]. apply cleanTitle_pieces.
Qed.

Lemma substring_length n m s : String.length (substring n m s) <= m.
Proof.
  revert n m; induction s as [|a s IH]; intros n m; destruct n, m; cbn; try lia.
  - specialize (IH 0 m). lia.
  - apply IH.
  - apply IH.
Qed.

Lemma substring_whole s : substring 0 (String.length s) s = s.
Proof. induction s as [|a s IH]; [reflexivity|]. cbn. now rewrite IH. Qed.

(** [s.substring(k)] is the suffix of [s] after its first [k] characters. *)
Lemma substring_from_suffix s k :
  k <= String.length s ->
  s = substring 0 k s +:+ substring_from s k /\
  String.length (substring_from s k) = String.length s - k.
Proof.
  unfold substring_from. revert k.
  induction s as [|a s IH]; intros k Hk.
  - destruct k; [split; reflexivity|cbn in Hk; lia].
  - destruct k as [|k].
    + rewrite Nat.sub_0_r, substring_whole. split; reflexivity.
    + cbn in Hk |- *. destruct (IH k ltac:(lia)) as [E L].
      rewrite str_app_cons, <- E. split; [reflexivity|exact L].
Qed.

End TitleFacts.

Module TitleExtras.
Import ChatTurn Gemini GeminiScenario GeminiFacts SplitFacts TitleFacts.

(** When the first user message is not the empty string and its trimmed
    text has at most four pieces, the fallback title is that trimmed text
    itself, without "..."; a message of spaces only gives the empty
    title. *)
Theorem fallback_title_short_message msgs m :
  find (fun msg => Sender_eqb (msg_sender msg) User) msgs = Some m ->
  msg_text m <> "" -> length (split_char space (trim (msg_text m))) <= 4 ->
  generateFallbackTitle msgs = trim (msg_text m).
Proof.
  intros Hf Hne Hl. unfold generateFallbackTitle. rewrite Hf.
  apply String.eqb_neq in Hne. rewrite Hne.
  rewrite Nat.min_l by exact Hl. rewrite firstn_all.
  replace (Nat.ltb 4 (length (split_char space (trim (msg_text m))))) with false
    by (symmetry; apply Nat.ltb_ge; exact Hl).
  rewrite space_string, join_split. apply str_app_nil_r.
Qed.

Lemma fallback_title_short_message_witness :
  generateFallbackTitle [TurnScenario.welcome; user_msg "user-1" "  Rome in spring "] =
    "Rome in spring" /\
  generateFallbackTitle [user_msg "user-1" "   "] = "".
Proof.
  split.
  - apply (fallback_title_short_message _ (user_msg "user-1" "  Rome in spring "));
      [reflexivity | discriminate | vm_compute; lia].
  - apply (fallback_title_short_message _ (user_msg "user-1" "   "));
      [reflexivity | discriminate | vm_compute; lia].
Defined.

(** Every title [generateChatTitleWithAI] returns, from the model or from
    a fallback, has at most seven space-separated pieces. *)
Theorem title_at_most_seven_pieces msgs base r e :
  match snd (generateChatTitleWithAI msgs base r e) with
  | Ok title => length (split_char space title) <= 7
  | Throw _ => True
  end.
Proof.
  unfold generateChatTitleWithAI, gbind.
  destruct (initializeAI e) as [e1 [u|msg]]; [|exact I].
  destruct msgs as [[|x xs]|]; cbn [gret snd]; try (cbn; lia).
  destruct (titleRequest (x :: xs) base); cbn [gret snd].
  - apply titleFromResponse_pieces.
  - pose proof (fallback_pieces (x :: xs)). lia.
Qed.

Lemma str_length_app (s t : string) : String.length (s +:+ t) = String.length s + String.length t.
Proof. induction s as [|a s IH]; [reflexivity|]. rewrite str_app_cons. cbn. now rewrite IH. Qed.

(** The conversation quoted in a title prompt is the history's lines
    ("role: text", joined by newlines) when they make at most 1500
    characters; a longer conversation is cut to its last 1500 characters
    behind "...".  So the quoted text is at most 1503 characters long. *)
Theorem title_prompt_context_bounded msgs base prompt :
  titleRequest msgs base = Some prompt ->
  let full := join newline (map (fun item => hi_role item +:+ ": " +:+ join "" (hi_parts item))
                                (mapAppMessagesToGeminiHistoryForTitle msgs base)) in
  exists ctx, prompt = titlePrompt ctx /\ String.length ctx <= 1503 /\
    ((String.length full <= 1500 /\ ctx = full) \/
     (1500 < String.length full /\
      exists dropped last, full = dropped +:+ last /\ String.length last = 1500 /\
                           ctx = "..." +:+ last)).
Proof.
  unfold titleRequest. destruct (Nat.eqb _ 0); [discriminate|].
  intros H. injection H as <-. set (full := join newline _).
  destruct (Nat.ltb 1500 (String.length full)) eqn:E.
  - apply Nat.ltb_lt in E.
    destruct (substring_from_suffix full (String.length full - 1500) ltac:(lia)) as [Es Ls].
    eexists. split; [reflexivity|split].
    + rewrite str_length_app, Ls. cbn [String.length]. lia.
    + right. split; [exact E|]. do 2 eexists. split; [exact Es|split; [lia|reflexivity]].
  - apply Nat.ltb_ge in E. exists full.
    split; [reflexivity|split; [lia|left; split; [exact E|reflexivity]]].
Qed.

Lemma title_prompt_context_bounded_witness :
  titleRequest rome_chat INITIAL_AI_WELCOME_TEXT_BASE =
    Some (titlePrompt "user: Plan my trip to Rome") /\
  exists ctx, titlePrompt "user: Plan my trip to Rome" = titlePrompt ctx /\
              String.length ctx <= 1503.
Proof.
  assert (H : titleRequest rome_chat INITIAL_AI_WELCOME_TEXT_BASE =
              Some (titlePrompt "user: Plan my trip to Rome")) by reflexivity.
  split; [exact H|].
  destruct (title_prompt_context_bounded _ _ _ H) as (ctx & E & Hl & _).
  exists ctx. split; [exact E|exact Hl].
Defined.

End TitleExtras.

Module TitleExtras2.
Import ChatTurn Gemini GeminiScenario GeminiFacts SplitFacts TitleFacts.

(** With [API_KEY] set, the client flavour of [generateChatTitleWithAI]
    and the proxy flavour agree: given the same answer text (or both
    failing), they return the same title and send the same prompts, at
    most one, and the client flavour leaves the chat session alone. *)
Theorem proxy_and_client_titles_agree e msgs base pr :
  String.eqb (opt_or_else (API_KEY e) "") "" = false ->
  let r := match pr with Proxy.ProxyThrows => TitleThrows
                       | Proxy.ProxyText t => TitleAnswer None t end in
  snd (generateChatTitleWithAI msgs base r e) = Ok (snd (Proxy.generateChatTitleWithAI msgs base pr)) /\
  exists prompts, fst (Proxy.generateChatTitleWithAI msgs base pr) = map Proxy.ProxyGenerateTitle prompts /\
    length prompts <= 1 /\
    requests (fst (generateChatTitleWithAI msgs base r e)) =
      requests e ++ map (GenerateContent TITLE_GENERATION_MODEL_NAME) prompts /\
    chatSessionInstance (fst (generateChatTitleWithAI msgs base r e)) = chatSessionInstance e.
Proof.
  intros Hk r. destruct (initializeAI_ok e Hk) as (e' & He & _ & _ & Hs & Hr).
  unfold generateChatTitleWithAI. rewrite !(gbind_ok _ _ e e' tt He).
  unfold Proxy.generateChatTitleWithAI.
  destruct msgs as [[|x xs]|];
    [ | destruct (titleRequest (x :: xs) base) as [p|] | ];
    cbn [gret fst snd].
  - split; [reflexivity|]. exists []. cbn [map length]. rewrite Hr, app_nil_r. auto.
  - split; [reflexivity|]. exists [p]. cbn [map length log_request requests chatSessionInstance].
    rewrite Hr, Hs. auto.
  - split; [reflexivity|]. exists []. cbn [map length]. rewrite Hr, app_nil_r. auto.
  - split; [reflexivity|]. exists []. cbn [map length]. rewrite Hr, app_nil_r. auto.
Qed.

Lemma proxy_and_client_titles_agree_witness :
  snd (generateChatTitleWithAI (Some rome_chat) INITIAL_AI_WELCOME_TEXT_BASE
         (TitleAnswer None (Some "Roman Holiday Plans")) env0) =
  Ok (snd (Proxy.generateChatTitleWithAI (Some rome_chat) INITIAL_AI_WELCOME_TEXT_BASE
             (Proxy.ProxyText (Some "Roman Holiday Plans")))).
Proof.
  exact (proj1 (proxy_and_client_titles_agree env0 (Some rome_chat) INITIAL_AI_WELCOME_TEXT_BASE
                  (Proxy.ProxyText (Some "Roman Holiday Plans")) eq_refl)).
Defined.

(** The fallback can commit an empty title: when the first user message
    is made of spaces only, a later user message has text, and the title
    request fails, the job's conversation gets the title "" (and its
    counter reset). *)
Theorem blank_first_message_empty_title e msgs base r m job currentChatId allChats :
  String.eqb (opt_or_else (API_KEY e) "") "" = false ->
  find (fun msg => Sender_eqb (msg_sender msg) User) msgs = Some m ->
  msg_text m <> "" -> trim (msg_text m) = "" ->
  existsb (fun m0 => Sender_eqb (msg_sender m0) User &&
                     negb (String.eqb (trim (msg_text m0)) ""))%bool msgs = true ->
  title_failed r = true ->
  job_messagesForContext job = msgs ->
  (job_isNew job = true \/ currentChatId = Some (job_id job)) ->
  processTitleUpdateQueue (Some job) currentChatId allChats
    (fun ms => snd (generateChatTitleWithAI (Some ms) base r e)) =
  map (fun chat => if String.eqb (chat_id chat) (job_id job)
                   then chat_with_new_title chat "" else chat) allChats.
Proof.
  intros Hk Hf Hne Hblank Huser Hr Hjob Hcur.
  assert (Hfb : generateFallbackTitle msgs = "").
  { unfold generateFallbackTitle. rewrite Hf. apply String.eqb_neq in Hne. rewrite Hne, Hblank.
    reflexivity. }
  assert (Hgen : snd (generateChatTitleWithAI (Some msgs) base r e) = Ok "").
  { destruct (initializeAI_ok e Hk) as (e' & He & _).
    unfold generateChatTitleWithAI. rewrite (gbind_ok _ _ e e' tt He).
    destruct msgs as [|x xs]; [discriminate Hf|].
    rewrite <- Hfb. destruct (titleRequest (x :: xs) base); cbn [snd gret].
    - rewrite titleFromResponse_failed by exact Hr. reflexivity.
    - reflexivity. }
  unfold processTitleUpdateQueue.
  assert (Hgo : (negb (match currentChatId with Some c => String.eqb (job_id job) c | None => false end)
                 && negb (job_isNew job))%bool = false).
  { destruct Hcur as [Hn|Hc].
    - rewrite Hn. apply andb_false_r.
    - rewrite Hc, String.eqb_refl. reflexivity. }
  rewrite Hgo, Hjob, Huser. cbn [negb andb]. rewrite Hgen. reflexivity.
Qed.

Lemma blank_first_message_empty_title_witness :
  processTitleUpdateQueue (Some blank_job) None [TurnScenario.chatA]
    (fun ms => snd (generateChatTitleWithAI (Some ms) INITIAL_AI_WELCOME_TEXT_BASE TitleThrows env0)) =
  [chat_with_new_title TurnScenario.chatA ""].
Proof.
  etransitivity.
  - apply (blank_first_message_empty_title env0 (job_messagesForContext blank_job)
             INITIAL_AI_WELCOME_TEXT_BASE TitleThrows (user_msg "user-1" "   ") blank_job None
             [TurnScenario.chatA]);
      [reflexivity | reflexivity | discriminate | reflexivity | reflexivity | reflexivity
      | reflexivity | left; reflexivity].
  - reflexivity.
Defined.

(** A title update changes titles and counters only: whatever the queue
    holds and the generator returns, the conversations keep their ids,
    messages and creation times, in the same order. *)
Theorem title_update_keeps_messages queue currentChatId allChats generate :
  let chats' := processTitleUpdateQueue queue currentChatId allChats generate in
  map chat_id chats' = map chat_id allChats /\
  map chat_messages chats' = map chat_messages allChats /\
  map chat_createdAt chats' = map chat_createdAt allChats.
Proof.
  cbv zeta. unfold processTitleUpdateQueue.
  destruct queue as [job|]; [|auto].
  destruct (_ && _)%bool; [auto|]. destruct (_ && _)%bool.
  - destruct (job_isNew job); [|auto]. rewrite !map_map.
    split; [|split]; apply map_ext; intros c; destruct (String.eqb _ _); reflexivity.
  - destruct (generate _) as [t|msg]; [|auto]. rewrite !map_map.
    split; [|split]; apply map_ext; intros c; destruct (String.eqb _ _); reflexivity.
Qed.

End TitleExtras2.
